(** * ChatPPT: the reflection loop and its callers

    A shallow embedding of

      - [src/reflection_python.py]  the sequential reflection engine,
      - [src/reflection_engine.py]  the same engine as a two-node workflow graph,
      - [src/chatbot.py]            [ChatBot.__init__], [ChatBot.chat_with_history],
      - [src/gradiobak.py]          the text handler [generate_contents],

    followed by the properties of the specification that concern them.

    Conventions of the embedding.

    - A Python [str] is a Rocq [string], the UTF-8 bytes of the text; the one
      place where the code indexes a [str] ([messages[1]] in the UI handler)
      goes through [Py.str_chars], which cuts the bytes at code points.
    - A Python [dict] with string keys is a [gmap string string]: dict
      equality ignores insertion order, and so does [gmap] equality.
    - A Python [int] is a [Z]; [f"{n}"] is stdpp's [pretty].
    - The only effect is the call [self.chat_model.invoke(messages)]. The
      provider is a function of the calls made so far and of the message list
      ([Py.provider]); every computation threads the list of calls already
      made ([Py.trace]) and either returns a value or raises ([Py.result]).
      The trace is kept when a computation raises, so calls can be counted on
      failing runs too.
    - [LOG.info], [LOG.debug] and [LOG.error] write to an external logger and
      influence neither the value returned nor the exception raised; they are
      left out. *)

From stdpp Require Import gmap strings list fin_maps pretty.

Local Open Scope string_scope.
Local Open Scope list_scope.
Local Open Scope Z_scope.

(** ** Python values, exceptions and the call monad *)

Module Py.

(** The message classes of [langchain_core.messages] used by the code. *)
Inductive BaseMessage :=
| SystemMessage (content : string)
| HumanMessage (content : string)
| AIMessage (content : string).

(** The exceptions that can travel through the modelled code. Everything
    but [BaseExc] is a subclass of [Exception]. *)
Inductive exn :=
| ProviderError (cls msg : string)  (* an [Exception] of the provider:
                                       connection, authentication, quota *)
| BaseExc (cls : string)            (* [KeyboardInterrupt], [SystemExit] *)
| IndexError
| KeyError (key : string)
| TypeError (msg : string)
| ValueError (msg : string)
| FileNotFoundError (msg : string)
| GraphRecursionError               (* langgraph: step limit reached *)
| GrError (msg : string).           (* [gr.Error] *)

(** [isinstance(e, Exception)] *)
Definition is_Exception (e : exn) : bool :=
  match e with BaseExc _ => false | _ => true end.

(** [isinstance(e, gr.Error)] *)
Definition is_gr_Error (e : exn) : bool :=
  match e with GrError _ => true | _ => false end.

Inductive result (A : Type) :=
| Ok (a : A)
| Raise (e : exn).
Arguments Ok {A} a.
Arguments Raise {A} e.

(** The calls made to the Generation Client so far, oldest first. *)
Definition trace : Type := list (list BaseMessage).

(** The external text-generation service: given the calls already made and
    a message list, it answers with the generated text or raises. *)
Definition provider : Type := trace → list BaseMessage → result string.

Definition M (A : Type) : Type := trace → result A * trace.

Definition ret {A} (a : A) : M A := λ tr, (Ok a, tr).

Definition raise {A} (e : exn) : M A := λ tr, (Raise e, tr).

Definition bind {A B} (m : M A) (k : A → M B) : M B :=
  λ tr, match m tr with
        | (Ok a, tr') => k a tr'
        | (Raise e, tr') => (Raise e, tr')
        end.

(** [try: m  except BaseException as e: h e] *)
Definition try_except {A} (m : M A) (h : exn → M A) : M A :=
  λ tr, match m tr with
        | (Ok a, tr') => (Ok a, tr')
        | (Raise e, tr') => h e tr'
        end.

(** [try: m  except Exception as e: h e]; anything else passes through. *)
Definition try_except_Exception {A} (m : M A) (h : exn → M A) : M A :=
  try_except m (λ e, if is_Exception e then h e else raise e).

(** [response = chat_model.invoke(messages)] followed by
    [response.content]: one call to the provider, recorded in the trace
    whether or not it raises. *)
Definition invoke (client : provider) (messages : list BaseMessage)
  : M string :=
  λ tr, (client tr messages, tr ++ [messages]).

(** [for x in xs: s = body x s] *)
Fixpoint for_in {A S} (xs : list A) (body : A → S → M S) (s : S) : M S :=
  match xs with
  | [] => ret s
  | x :: xs' => bind (body x s) (for_in xs' body)
  end.

(** [range(a, b)] *)
Definition range (a b : Z) : list Z := seqZ a (b - a).

(** [l[i]] on a list: negative indices count from the end. *)
Definition list_getitem {A} (l : list A) (i : Z) : M A :=
  let j := if i <? 0 then i + Z.of_nat (length l) else i in
  if j <? 0 then raise IndexError
  else match l !! Z.to_nat j with
       | Some x => ret x
       | None => raise IndexError
       end.

(** [d[k]] on a dict *)
Definition dict_getitem (d : gmap string string) (k : string) : M string :=
  match d !! k with
  | Some v => ret v
  | None => raise (KeyError k)
  end.

(** [d.get(k, default)] *)
Definition dict_get (d : gmap string string) (k default : string) : string :=
  match d !! k with
  | Some v => v
  | None => default
  end.

(** A byte that continues a UTF-8 sequence: [10xxxxxx]. *)
Definition is_continuation (a : Ascii.ascii) : bool :=
  match a with
  | Ascii.Ascii _ _ _ _ _ _ b6 b7 => b7 && negb b6
  end.

(** The code points of a [str], each as the string of its bytes. *)
Fixpoint str_chars (s : string) : list string :=
  match s with
  | EmptyString => []
  | String a rest =>
      match str_chars rest with
      | [] => [String a EmptyString]
      | c :: cs =>
          match c with
          | String b _ =>
              if is_continuation b then String a c :: cs
              else String a EmptyString :: c :: cs
          | EmptyString => String a EmptyString :: cs
          end
      end
  end.

(** [s[i]] on a [str], for [i >= 0]: the one-character string, or
    [IndexError]. *)
Definition str_getitem (s : string) (i : nat) : M string :=
  match str_chars s !! i with
  | Some c => ret c
  | None => raise IndexError
  end.

(** [s[k]] on a [str] with a [str] key: "string indices must be integers". *)
Definition str_getitem_str (s k : string) : M string :=
  raise (TypeError "string indices must be integers").

(** Truth value of a [str]: [not text] holds for the empty string only. *)
Definition truthy (s : string) : bool :=
  match s with EmptyString => false | _ => true end.

(** A call to a collaborator other than the provider: its result, with the
    trace of provider calls untouched. *)
Definition external {A} (r : result A) : M A := λ tr, (r, tr).

(** [d[k]] on a dict whose keys are all [str], with an [int] key: the key
    is never there. *)
Definition dict_getitem_int (d : gmap string string) (k : Z) : M string :=
  raise (KeyError (pretty k)).

(** Truth value of a dict: false for the empty dict only. *)
Definition dict_truthy (d : gmap string string) : bool :=
  negb (bool_decide (d = ∅)).

End Py.

Import Py.

(** stdpp's monad notation: [x ← m; k] binds, [mret] returns. *)
#[global] Instance M_ret : MRet M := @Py.ret.
#[global] Instance M_bind : MBind M := λ A B k m, Py.bind m k.

(** [f"round_{n}"] *)
Definition round_key (n : Z) : string := "round_" +:+ pretty n.

(** ** [src/reflection_python.py]: the sequential engine *)

Module reflection_python.

Record ReflectionEngine := { max_rounds : Z }.

(** [ReflectionEngine(max_rounds=3)] *)
Definition __init__ (max_rounds : option Z) : ReflectionEngine :=
  {| max_rounds := default 3 max_rounds |}.

Definition _get_reflection_prompt (self : ReflectionEngine) (round_num : Z)
  : string :=
  "这是第 " +:+ pretty (round_num + 1) +:+ " 轮优化，请基于以下方向优化内容：
        1. 内容深度：补充专业观点、数据支持和研究发现
        2. 案例丰富：增加相关案例、实际应用场景
        3. 结构优化：改进内容组织，使逻辑更清晰
        4. 表达提升：优化语言表达，使内容更生动
        
        请基于上述方向对内容进行优化，保持核心主题不变。".

Section Engine.
Variable client : provider.

Definition optimize_content (self : ReflectionEngine)
    (initial_content system_prompt : string) : M (gmap string string) :=
  try_except_Exception
    (let optimization_history : gmap string string :=
       <["final_content" := initial_content]>
         {["round_0" := initial_content]} in
     let current_content := initial_content in
     st ← for_in (range 1 (max_rounds self))
            (λ round_num '(optimization_history, current_content),
               let messages :=
                 [ SystemMessage system_prompt;
                   HumanMessage current_content;
                   SystemMessage (_get_reflection_prompt self round_num) ] in
               response ← invoke client messages ;
               let current_content := response in
               let optimization_history :=
                 <[round_key round_num := current_content]>
                   optimization_history in
               let optimization_history :=
                 <["final_content" := current_content]>
                   optimization_history in
               ret (optimization_history, current_content))
            (optimization_history, current_content) ;
     ret (fst st))
    (λ e, raise e).
End Engine.

End reflection_python.

(** ** [src/reflection_engine.py]: the engine as a workflow graph *)

Module reflection_engine.

(** [class ReflectionState(TypedDict)]; the entries of [messages] are the
    dicts [{"role": ..., "content": ...}]. *)
Record ReflectionState := {
  messages : list (gmap string string);
  current_round : Z;
  optimization_history : gmap string string;
  should_continue : bool
}.

Record ReflectionEngine := { max_rounds : Z }.

(** [ReflectionEngine(max_rounds=3)] *)
Definition __init__ (max_rounds : option Z) : ReflectionEngine :=
  {| max_rounds := default 3 max_rounds |}.

(** *** The part of langgraph the engine uses

    The graph has the two nodes the engine adds. A compiled graph runs the
    entry node, then follows the edge that leaves the node just run: a
    conditional edge evaluates its predicate on the state the node returned
    and looks the outcome up in its path map; a node without an outgoing
    edge ends the run. langgraph bounds the number of node executions of
    one [invoke] (its [recursion_limit], 25 unless configured) and raises
    [GraphRecursionError] beyond it; the bound is the fuel of [run]. *)
Inductive node := optimize | end_.

Record StateGraph := {
  nodes : node → ReflectionState → M ReflectionState;
  conditional_edges :
    node → option ((ReflectionState → bool) * (bool → node));
  entry_point : node
}.

Fixpoint run (g : StateGraph) (fuel : nat) (n : node)
    (state : ReflectionState) : M ReflectionState :=
  match fuel with
  | O => raise GraphRecursionError
  | S fuel' =>
      state' ← nodes g n state;
      match conditional_edges g n with
      | Some (path, path_map) => run g fuel' (path_map (path state')) state'
      | None => mret state'
      end
  end.

(** [workflow.invoke(state)] *)
Definition workflow_invoke (g : StateGraph) (recursion_limit : nat)
    (state : ReflectionState) : M ReflectionState :=
  run g recursion_limit (entry_point g) state.

(** *** The engine *)

Definition _get_reflection_prompt (self : ReflectionEngine) (round_num : Z)
  : string :=
  "这是第 " +:+ pretty (round_num + 1) +:+ " 轮优化，请基于以下方向优化内容：
        1. 内容深度：补充专业观点、数据支持和研究发现
        2. 案例丰富：增加相关案例、实际应用场景
        3. 结构优化：改进内容组织，使逻辑更清晰
        4. 表达提升：优化语言表达，使内容更生动
        
        请基于上述方向对内容进行优化，保持核心主题不变。".

Section Engine.
Variable client : provider.
Variable recursion_limit : nat.

(** The node [optimize]: one round. *)
Definition _optimize_content (self : ReflectionEngine)
    (state : ReflectionState) : M ReflectionState :=
  try_except_Exception
    (let current_round := current_round state in
     first ← list_getitem (messages state) 0;
     system ← dict_getitem first "content";
     last ← list_getitem (messages state) (-1);
     current ← dict_getitem last "content";
     let messages :=
       [ SystemMessage system;
         HumanMessage current;
         SystemMessage (_get_reflection_prompt self current_round) ] in
     response ← invoke client messages;
     mret {| messages :=
               reflection_engine.messages state ++
               [ <["content" := response]> {["role" := "assistant"]} ];
             optimization_history :=
               <["final_content" := response]>
                 (<[round_key current_round := response]>
                    (optimization_history state));
             current_round := current_round + 1;
             should_continue := should_continue state |})
    (λ e, raise e).

Definition _should_continue (self : ReflectionEngine)
    (state : ReflectionState) : bool :=
  bool_decide (current_round state < max_rounds self).

Definition _create_workflow (self : ReflectionEngine) : StateGraph :=
  {| nodes := λ n,
       match n with
       | optimize => _optimize_content self
       | end_ => λ x, mret x
       end;
     conditional_edges := λ n,
       match n with
       | optimize =>
           Some (_should_continue self,
                 λ b : bool, if b then optimize else end_)
       | end_ => None
       end;
     entry_point := optimize |}.

(** [self.workflow], set by the constructor *)
Definition workflow (self : ReflectionEngine) : StateGraph :=
  _create_workflow self.

Definition optimize_content (self : ReflectionEngine)
    (initial_content system_prompt : string) : M (gmap string string) :=
  try_except_Exception
    (let initial_state :=
       {| messages :=
            [ <["content" := system_prompt]> {["role" := "system"]};
              <["content" := initial_content]> {["role" := "user"]} ];
          current_round := 0;
          optimization_history :=
            <["final_content" := initial_content]>
              {["round_0" := initial_content]};
          should_continue := true |} in
     final_state ← workflow_invoke (workflow self) recursion_limit
                     initial_state;
     mret (optimization_history final_state))
    (λ e, raise e).
End Engine.

End reflection_engine.

(** ** [src/chatbot.py]: the chat orchestrator *)

Module chatbot.

Record ChatBot := {
  prompt_file : string;
  session_id : string;
  prompt : string;
  engine : reflection_engine.ReflectionEngine  (* [self.reflection_engine] *)
}.

Section Startup.
(** The text files that exist, by path, and [str.strip]. *)
Variable files : gmap string string.
Variable strip : string → string.

Definition load_prompt (prompt_file : string) : result string :=
  match files !! prompt_file with
  | Some text => Ok (strip text)
  | None =>
      Raise (FileNotFoundError ("找不到提示文件 " +:+ prompt_file +:+ "!"))
  end.

(** [ChatBot(prompt_file="./prompts/chatbot.txt", session_id=None)];
    [environ] is [os.environ], returned with the variable the constructor
    sets. *)
Definition __init__ (prompt_file session_id : option string)
    (environ : gmap string string)
  : result ChatBot * gmap string string :=
  let prompt_file := default "./prompts/chatbot.txt" prompt_file in
  let session_id :=
    match session_id with
    | Some s => if truthy s then s else "default_session_id"
    | None => "default_session_id"
    end in
  let environ :=
    <["OPENAI_API_BASE" := "https://api.javis3000.com/v1"]> environ in
  if negb (from_option truthy false (environ !! "OPENAI_API_KEY"))
  then (Raise (ValueError "请设置 OPENAI_API_KEY 环境变量"), environ)
  else
    match load_prompt prompt_file with
    | Raise e => (Raise e, environ)
    | Ok prompt =>
        (Ok {| prompt_file := prompt_file;
               session_id := session_id;
               prompt := prompt;
               engine := reflection_engine.__init__ None |},
         environ)
    end.
End Startup.

Section Chat.
Variable client : provider.
Variable recursion_limit : nat.

Definition chat_with_history (self : ChatBot) (text : string) : M string :=
  try_except_Exception
    (optimization_result ←
       reflection_engine.optimize_content client recursion_limit
         (engine self) text (prompt self);
     final_content ← dict_getitem optimization_result "final_content";
     mret final_content)
    (λ e, raise e).
End Chat.

End chatbot.

(** ** [src/gradiobak.py]: the text handler *)

Module gradiobak.

(** What the handler receives: a [str], or a dict with a ["text"] entry. *)
Inductive message :=
| MsgStr (s : string)
| MsgDict (d : gmap string string).

Section Handlers.
Variable client : provider.
Variable recursion_limit : nat.
Variable chat_agent : chatbot.ChatBot.

Definition generate_contents (message : message)
    (history : list (gmap string string))
  : M (list (gmap string string)) :=
  try_except
    (let text :=
       match message with
       | MsgStr s => s
       | MsgDict d => dict_get d "text" ""
       end in
     _ ← (if negb (truthy text) then raise (GrError "请输入内容")
          else mret ());
     messages ← chatbot.chat_with_history client recursion_limit
                  chat_agent text;
     second ← str_getitem messages 1;
     reply ← str_getitem_str second "content";
     mret [ <["content" := text]> {["role" := "user"]};
            <["content" := reply]> {["role" := "assistant"]} ])
    (λ e, if is_gr_Error e then raise e
          else if is_Exception e then raise (GrError "网络问题，请重试:)")
          else raise e).
End Handlers.

(** [FileData]: an uploaded file; the handlers read its [name], the path. *)
Record FileData := { name : string }.

(** The other handlers. The chat history they receive is the value of the
    [gr.Chatbot(type="messages")] component: a list of dicts with the keys
    ["role"] and ["content"]. *)
Section OtherHandlers.
Variable client : provider.
Variable recursion_limit : nat.
Variable chat_agent : chatbot.ChatBot.

(** The collaborators, none of them among the sources: speech recognition,
    docx conversion, [content_formatter.format],
    [content_assistant.adjust_single_picture],
    [image_advisor.generate_images], [parse_input_text] (with the layout
    manager) and [generate_presentation] (with the template); and the
    library's [os.path.splitext(p)[1].lower()] and [os.path.basename]. *)
Variable asr : string → result string.
Variable generate_markdown_from_docx : string → result string.
Variable content_formatter_format : string → result string.
Variable content_assistant_adjust_single_picture : string → result string.
Variable ImagePair : Type.
Variable image_advisor_generate_images : string → result (string * ImagePair).
Variable PowerpointData : Type.
Variable parse_input_text : string → result (PowerpointData * string).
Variable generate_presentation : PowerpointData → string → result unit.
Variable splitext_lower : string → string.
Variable basename : string → string.

Definition handle_file_upload (file : option FileData)
    (history : list (gmap string string))
  : M (list (gmap string string)) :=
  try_except_Exception
    (match file with
     | None => mret history
     | Some file =>
         let file_path := name file in
         let file_ext := splitext_lower file_path in
         if bool_decide (file_ext ∈ [".wav"; ".flac"; ".mp3"]) then
           audio_text ← external (asr file_path);
           messages ← chatbot.chat_with_history client recursion_limit
                        chat_agent audio_text;
           second ← str_getitem messages 1;
           reply ← str_getitem_str second "content";
           mret [ <["content" := audio_text]> {["role" := "user"]};
                  <["content" := reply]> {["role" := "assistant"]} ]
         else if bool_decide (file_ext ∈ [".docx"; ".doc"]) then
           raw_content ← external (generate_markdown_from_docx file_path);
           markdown_content ← external (content_formatter_format raw_content);
           final_content ←
             external (content_assistant_adjust_single_picture
                         markdown_content);
           mret [ <["content" := "处理文件: " +:+ basename file_path]>
                    {["role" := "user"]};
                  <["content" := final_content]> {["role" := "assistant"]} ]
         else raise (GrError ("不支持的文件格式: " +:+ file_ext))
     end)
    (λ e, raise (GrError "文件处理失败，请重试")).

(** [audio] is the path of the recording, or [None]. *)
Definition transcribe (audio : option string)
    (history : list (gmap string string))
  : M (list (gmap string string)) :=
  try_except_Exception
    (if negb (from_option truthy false audio) then mret history
     else
       text ← external (asr (default "" audio));
       messages ← chatbot.chat_with_history client recursion_limit
                    chat_agent text;
       second ← str_getitem messages 1;
       reply ← str_getitem_str second "content";
       mret [ <["content" := text]> {["role" := "user"]};
              <["content" := reply]> {["role" := "assistant"]} ])
    (λ e, raise (GrError "音频处理失败，请重试")).

(** [next((msg for msg in msgs if msg["role"] == "assistant"), None)] *)
Fixpoint next_assistant (msgs : list (gmap string string))
  : M (option (gmap string string)) :=
  match msgs with
  | [] => mret None
  | msg :: rest =>
      role ← dict_getitem msg "role";
      if bool_decide (role = "assistant") then mret (Some msg)
      else next_assistant rest
  end.

Definition handle_image_generate (history : list (gmap string string))
  : M (list (gmap string string)) :=
  try_except_Exception
    (last_message ← next_assistant (reverse history);
     match last_message with
     | Some last_message =>
         if negb (dict_truthy last_message)
         then raise (GrError "没有找到可用的内容")
         else
           slides_content ← dict_getitem last_message "content";
           '(content_with_images, image_pair) ←
             external (image_advisor_generate_images slides_content);
           mret [ <["content" := "生成配图"]> {["role" := "user"]};
                  <["content" := content_with_images]>
                    {["role" := "assistant"]} ]
     | None => raise (GrError "没有找到可用的内容")
     end)
    (λ e, raise (GrError "【提示】未找到合适配图，请重试！")).

Definition handle_generate (history : list (gmap string string))
  : M string :=
  try_except_Exception
    (last ← list_getitem history (-1);
     slides_content ← dict_getitem_int last 1;
     '(powerpoint_data, presentation_title) ←
       external (parse_input_text slides_content);
     let output_pptx := "outputs/" +:+ presentation_title +:+ ".pptx" in
     _ ← external (generate_presentation powerpoint_data output_pptx);
     mret output_pptx)
    (λ e, raise (GrError "【提示】请先输入你的主题内容或上传文件")).
End OtherHandlers.

End gradiobak.

(** * Vocabulary of the properties

    Nothing below is part of the program: these are the notions the
    properties are stated with, and the inputs they are tried on. *)

(** ** Outcomes *)

#[global] Instance result_fmap : FMap result := λ A B f r,
  match r with
  | Ok a => Ok (f a)
  | Raise e => Raise e
  end.

(** The outcome of a computation with [f] applied to the value returned. *)
Definition map_outcome {A B} (f : A → B) (o : result A * trace)
  : result B * trace :=
  (f <$> o.1, o.2).

(** A provider that answers every call. *)
Definition never_fails (client : provider) : Prop :=
  ∀ tr messages, ∃ text, client tr messages = Ok text.

(** A provider whose failures are ordinary exceptions: subclasses of
    [Exception] other than [gr.Error]. *)
Definition raises_ordinary_exceptions (client : provider) : Prop :=
  ∀ tr messages e,
    client tr messages = Raise e →
    is_Exception e = true ∧ is_gr_Error e = false.

(** ** Both engines as one bounded iteration

    [rounds n r h cur] performs the [n] rounds numbered [r], [r+1], ... on
    the content [cur], recording each answer in [h]. The sequential engine
    and the graph engine are both instances of it; they differ in the
    number of the first round and in how many rounds they perform. *)

(** The critique instruction; [self] is not used by either engine. *)
Definition critique (round_num : Z) : string :=
  reflection_python._get_reflection_prompt
    (reflection_python.__init__ None) round_num.

(** The message list of one round. *)
Definition request (system_prompt current : string) (round_num : Z)
  : list BaseMessage :=
  [ SystemMessage system_prompt;
    HumanMessage current;
    SystemMessage (critique round_num) ].

(** What one round writes into the history. *)
Definition record_round (round_num : Z) (text : string)
    (h : gmap string string) : gmap string string :=
  <["final_content" := text]> (<[round_key round_num := text]> h).

(** The history both engines start from. *)
Definition initial_history (initial_content : string) : gmap string string :=
  <["final_content" := initial_content]> {["round_0" := initial_content]}.

(** [n] rounds from round [r]: the bounded loop with an accumulator. *)
Fixpoint rounds (client : provider) (system_prompt : string) (n : nat)
    (r : Z) (h : gmap string string) (cur : string)
  : M (gmap string string * string) :=
  match n with
  | O => mret (h, cur)
  | S n' =>
      response ← invoke client (request system_prompt cur r);
      rounds client system_prompt n' (r + 1) (record_round r response h)
        response
  end.

(** What the run of a graph with step limit [fuel] makes of [n] rounds: the
    node [end] needs a step of its own. *)
Definition graph_outcome (fuel n : nat)
    (o : result (gmap string string * string) * trace)
  : result (gmap string string) * trace :=
  match o with
  | (Ok (h, _), tr') =>
      (if decide (fuel ≤ n)%nat then Raise GraphRecursionError else Ok h, tr')
  | (Raise e, tr') => (Raise e, tr')
  end.

(** ** States of the graph engine *)

Section GraphState.
Import reflection_engine.

(** The first message holds the system prompt, the last one the current
    content. *)
Definition state_ok (sp cur : string) (st : ReflectionState) : Prop :=
  (head (messages st) ≫= λ d, d !! "content") = Some sp ∧
  (last (messages st) ≫= λ d, d !! "content") = Some cur.

(** The state the node [optimize] returns when the provider answers. *)
Definition next_state (st : ReflectionState) (text : string)
  : ReflectionState :=
  {| messages :=
       messages st ++ [ <["content" := text]> {["role" := "assistant"]} ];
     optimization_history :=
       record_round (current_round st) text (optimization_history st);
     current_round := current_round st + 1;
     should_continue := should_continue st |}.

(** The rounds the graph performs from a state: the node runs before the
    predicate is asked, so at least one. *)
Definition rounds_left (self : ReflectionEngine) (st : ReflectionState)
  : nat :=
  (Z.to_nat (max_rounds self - current_round st) `max` 1)%nat.
End GraphState.

(** ** The text handler *)

(** The text the handler extracts from what it receives. *)
Definition message_text (message : gradiobak.message) : string :=
  match message with
  | gradiobak.MsgStr s => s
  | gradiobak.MsgDict d => dict_get d "text" ""
  end.

(** What the handler's [except] clauses make of an exception. *)
Definition handled (e : exn) : exn :=
  if is_gr_Error e then e
  else if is_Exception e then GrError "网络问题，请重试:)"
  else e.

(** [is_substring needle hay]: [needle] occurs in [hay]. *)
Fixpoint is_substring (needle hay : string) : bool :=
  String.prefix needle hay ||
  match hay with
  | EmptyString => false
  | String _ rest => is_substring needle rest
  end.

(** ** Stub providers and sample inputs *)

(** The stub of the specification's scenario: the submitted content with
    ["+refined<k>"] appended on the [k]-th call. *)
Definition stub_refined : provider := λ tr messages,
  match messages with
  | [_; HumanMessage c; _] =>
      Ok (c +:+ "+refined" +:+ pretty (S (length tr)))
  | _ => Raise (ProviderError "BadRequestError" "unexpected message list")
  end.

(** A provider that is down. *)
Definition stub_down : provider := λ _ _,
  Raise (ProviderError "APIConnectionError" "Connection error.").

(** A provider that answers [k] calls and is down afterwards. *)
Definition stub_down_after (k : nat) : provider := λ tr messages,
  if decide (length tr < k)%nat then stub_refined tr messages
  else stub_down tr messages.

(** The inputs of the specification's scenario. *)
Definition scenario_content : string := "AI in education".
Definition scenario_prompt : string := "You are a slide-content writer.".

(** A chat agent as [ChatBot(...)] builds it. *)
Definition demo_agent : chatbot.ChatBot :=
  {| chatbot.prompt_file := "./prompts/chatbot.txt";
     chatbot.session_id := "default_session_id";
     chatbot.prompt := scenario_prompt;
     chatbot.engine := reflection_engine.__init__ None |}.

(** The files and environment of a configured installation. *)
Definition demo_files : gmap string string :=
  {["./prompts/chatbot.txt" := scenario_prompt]}.
Definition demo_environ : gmap string string :=
  {["OPENAI_API_KEY" := "sk-test"]}.

(** What the two engines return and submit on the scenario, with
    [stub_refined] and the default [max_rounds = 3]. *)
Definition scenario_python_history : gmap string string :=
  <["final_content" := "AI in education+refined1+refined2"]>
  (<["round_2" := "AI in education+refined1+refined2"]>
   (<["round_1" := "AI in education+refined1"]>
    {["round_0" := "AI in education"]})).
Definition scenario_python_calls : trace :=
  [ request scenario_prompt scenario_content 1;
    request scenario_prompt "AI in education+refined1" 2 ].
Definition scenario_graph_history : gmap string string :=
  <["final_content" := "AI in education+refined1+refined2+refined3"]>
  (<["round_2" := "AI in education+refined1+refined2+refined3"]>
   (<["round_1" := "AI in education+refined1+refined2"]>
    {["round_0" := "AI in education+refined1"]})).
Definition scenario_graph_calls : trace :=
  [ request scenario_prompt scenario_content 0;
    request scenario_prompt "AI in education+refined1" 1;
    request scenario_prompt "AI in education+refined1+refined2" 2 ].

(** A provider that answers every call, with the number of the call. *)
Definition stub_total : provider := λ tr _,
  Ok ("draft " +:+ pretty (S (length tr))).

(** ** Collaborators of the handlers *)

(** A provider, a collaborator, whose failures are subclasses of
    [Exception]. *)
Definition provider_raises_exceptions (client : provider) : Prop :=
  ∀ tr messages e, client tr messages = Raise e → is_Exception e = true.

Definition raises_exceptions {A B} (f : A → result B) : Prop :=
  ∀ x e, f x = Raise e → is_Exception e = true.

(** A message of the chat history that has a role, and not the
    assistant's. *)
Definition not_from_assistant (msg : gmap string string) : Prop :=
  ∃ role, msg !! "role" = Some role ∧ role ≠ "assistant".

(** What [messages[1]["content"]] raises on the [str] [reply]. *)
Definition item_error (reply : string) : exn :=
  match str_chars reply !! 1%nat with
  | Some _ => TypeError "string indices must be integers"
  | None => IndexError
  end.

(** Sample collaborators. *)
Definition stub_asr : string → result string := λ path,
  Ok ("transcript of " +:+ path).
Definition stub_docx : string → result string := λ path,
  Ok ("# " +:+ path).
Definition stub_format : string → result string := λ text,
  Ok (text +:+ " (formatted)").
Definition stub_adjust : string → result string := λ text,
  Ok (text +:+ " (adjusted)").
Definition stub_images : string → result (string * unit) := λ text,
  Ok (text +:+ " ![image](images/1.png)", ()).
Definition stub_parse : string → result (unit * string) := λ text,
  Ok ((), text).
Definition stub_present : unit → string → result unit := λ _ _, Ok ().

(** The extension by the last dot of the path, as it is written; enough for
    the sample paths below, which are lower case and have no directory. *)
Fixpoint stub_ext (path : string) : string :=
  match path with
  | EmptyString => EmptyString
  | String a rest =>
      if is_substring "." rest then stub_ext rest
      else if String.eqb (String a EmptyString) "." then path
      else EmptyString
  end.

(** * Properties *)

(* [set_solver] clears hypotheses by name on its way. *)
#[local] Set Warnings "-clear-no-such-hyp".

(** ** The call monad *)

Lemma bind_unfold {A B} (m : M A) (k : A → M B) tr :
  (m ≫= k) tr =
  match m tr with
  | (Ok a, tr') => k a tr'
  | (Raise e, tr') => (Raise e, tr')
  end.
Proof. reflexivity. Qed.

Lemma bind_ret {A B} (a : A) (k : A → M B) tr : (mret a ≫= k) tr = k a tr.
Proof. reflexivity. Qed.

Lemma bind_raise {A B} (e : exn) (k : A → M B) tr :
  (raise e ≫= k) tr = (Raise e, tr).
Proof. reflexivity. Qed.

Lemma bind_invoke {B} client messages (k : string → M B) tr :
  (invoke client messages ≫= k) tr =
  match client tr messages with
  | Ok text => k text (tr ++ [messages])
  | Raise e => (Raise e, tr ++ [messages])
  end.
Proof.
  rewrite bind_unfold. unfold invoke. by destruct (client tr messages).
Qed.

(** A handler that only raises what it caught again does nothing. *)
Lemma reraise_transparent {A} (m : M A) tr :
  try_except_Exception m (λ e, raise e) tr = m tr.
Proof.
  unfold try_except_Exception, try_except.
  destruct (m tr) as [[a|e] tr']; [done|]. by destruct (is_Exception e).
Qed.

Lemma list_getitem_first {A} (l : list A) x :
  head l = Some x → list_getitem l 0 = mret x.
Proof. destruct l; intros [= ->]. reflexivity. Qed.

Lemma list_getitem_last {A} (l : list A) x :
  last l = Some x → list_getitem l (-1) = mret x.
Proof.
  intros Hl. unfold list_getitem.
  assert (Hlen : (0 < length l)%nat) by (destruct l; [done | simpl; lia]).
  replace (-1 <? 0) with true by done.
  destruct (Z.ltb_spec (-1 + Z.of_nat (length l)) 0); [lia|].
  replace (Z.to_nat (-1 + Z.of_nat (length l))) with (pred (length l)) by lia.
  rewrite last_lookup in Hl. by rewrite Hl.
Qed.

Lemma dict_getitem_Some (d : gmap string string) k v :
  d !! k = Some v → dict_getitem d k = mret v.
Proof. intros H. unfold dict_getitem. by rewrite H. Qed.

(** ** Keys of the history *)

Lemma round_key_inj : Inj (=) (=) round_key.
Proof.
  intros i j H. unfold round_key in H.
  by apply (inj pretty), (inj (String.append "round_")).
Qed.

Lemma round_key_not_final r : round_key r ≠ "final_content".
Proof. unfold round_key. simpl. discriminate. Qed.

Lemma round_key_0 : round_key 0 = "round_0".
Proof. reflexivity. Qed.

(** ** The bounded iteration *)

Lemma prompt_python self r :
  reflection_python._get_reflection_prompt self r = critique r.
Proof. reflexivity. Qed.

Lemma prompt_graph self r :
  reflection_engine._get_reflection_prompt self r = critique r.
Proof. reflexivity. Qed.

Section Rounds.
Variable client : provider.
Variable sp : string.

Lemma rounds_S n r h cur tr :
  rounds client sp (S n) r h cur tr =
  match client tr (request sp cur r) with
  | Ok text =>
      rounds client sp n (r + 1) (record_round r text h) text
        (tr ++ [request sp cur r])
  | Raise e => (Raise e, tr ++ [request sp cur r])
  end.
Proof. simpl. by rewrite bind_invoke. Qed.

(** The trace only grows, by at most [n] calls, and by exactly [n] when
    the rounds return. *)
Lemma rounds_calls n : ∀ r h cur tr res tr',
  rounds client sp n r h cur tr = (res, tr') →
  ∃ calls, tr' = tr ++ calls ∧ (length calls ≤ n)%nat ∧
           (∀ x, res = Ok x → length calls = n).
Proof.
  induction n as [|n IH]; intros r h cur tr res tr' Hrun.
  - injection Hrun as <- <-. exists []. by rewrite app_nil_r.
  - rewrite rounds_S in Hrun.
    destruct (client tr (request sp cur r)) as [text|e].
    + apply IH in Hrun as (calls & -> & Hle & Hok).
      exists (request sp cur r :: calls). rewrite <- app_assoc.
      split; [done|]. simpl. split; [lia|].
      intros x Hx. by rewrite (Hok x Hx).
    + injection Hrun as <- <-. exists [request sp cur r].
      split; [done|]. simpl. split; [lia|]. discriminate.
Qed.

(** With a provider that never fails the rounds return. *)
Lemma rounds_return n : never_fails client → ∀ r h cur tr,
  ∃ h' c' tr', rounds client sp n r h cur tr = (Ok (h', c'), tr').
Proof.
  intros Hc. induction n as [|n IH]; intros r h cur tr.
  - by exists h, cur, tr.
  - rewrite rounds_S. destruct (Hc tr (request sp cur r)) as [text ->].
    apply IH.
Qed.

(** Fail-stop: a call that raises is the last call of the run, and the
    run raises what that call raised. *)
Lemma rounds_fail_stop n : ∀ r h cur tr res pre m post e,
  rounds client sp n r h cur tr = (res, tr ++ pre ++ m :: post) →
  client (tr ++ pre) m = Raise e →
  post = [] ∧ res = Raise e.
Proof.
  induction n as [|n IH]; intros r h cur tr res pre m post e Hrun Hm.
  - injection Hrun as _ Htr. apply (f_equal length) in Htr.
    rewrite !length_app in Htr. simpl in Htr. lia.
  - rewrite rounds_S in Hrun.
    destruct (client tr (request sp cur r)) as [text|e0] eqn:Hfirst.
    + destruct pre as [|p pre].
      * destruct (rounds_calls _ _ _ _ _ _ _ Hrun) as (calls & Htr & _).
        rewrite <- app_assoc in Htr.
        apply (inj (app tr)) in Htr. simpl in Htr.
        injection Htr as -> _. rewrite app_nil_r in Hm. congruence.
      * destruct (rounds_calls _ _ _ _ _ _ _ Hrun) as (calls & Htr & _).
        rewrite <- app_assoc in Htr.
        apply (inj (app tr)) in Htr. simpl in Htr.
        injection Htr as -> _.
        apply (IH (r + 1) (record_round r text h) text
                  (tr ++ [request sp cur r]) res pre m post e);
          by rewrite <- app_assoc.
    + injection Hrun as <- Htr. apply (inj (app tr)) in Htr.
      destruct pre as [|p pre]; simpl in Htr.
      * injection Htr as Hreq <-. rewrite app_nil_r, <- Hreq in Hm.
        split; congruence.
      * injection Htr as _ Htr. by destruct pre.
Qed.

(** A run that raises raises what its last call raised. *)
Lemma rounds_raise n : ∀ r h cur tr e tr',
  rounds client sp n r h cur tr = (Raise e, tr') →
  ∃ pre m, tr' = tr ++ pre ++ [m] ∧ client (tr ++ pre) m = Raise e.
Proof.
  induction n as [|n IH]; intros r h cur tr e tr' Hrun; [done|].
  rewrite rounds_S in Hrun.
  destruct (client tr (request sp cur r)) as [text|e0] eqn:Hfirst.
  - apply IH in Hrun as (pre & m & -> & Hm).
    exists (request sp cur r :: pre), m.
    rewrite <- !app_assoc in *. done.
  - injection Hrun as <- <-. exists [], (request sp cur r).
    by rewrite app_nil_r.
Qed.
End Rounds.

Section RoundsMessages.
Variable client : provider.
Variable sp : string.

End RoundsMessages.

Section RoundsHistory.
Variable client : provider.
Variable sp : string.

(** No round: nothing changes. *)
Lemma rounds_0 r h cur tr :
  rounds client sp 0 r h cur tr = (Ok (h, cur), tr).
Proof. reflexivity. Qed.

(** The keys of the history after [n] rounds. *)
Lemma rounds_dom n : ∀ r h cur tr h' c' tr',
  rounds client sp n r h cur tr = (Ok (h', c'), tr') →
  "final_content" ∈ dom h →
  dom h' = dom h ∪ list_to_set (round_key <$> seqZ r (Z.of_nat n)).
Proof.
  induction n as [|n IH]; intros r h cur tr h' c' tr' Hrun Hfinal.
  - injection Hrun as <- _ _. set_solver.
  - rewrite rounds_S in Hrun.
    destruct (client tr (request sp cur r)) as [text|e]; [|done].
    apply IH in Hrun.
    + rewrite Hrun. unfold record_round. rewrite !dom_insert_L.
      rewrite (seqZ_cons r (Z.of_nat (S n))) by lia.
      replace (Z.pred (Z.of_nat (S n))) with (Z.of_nat n) by lia.
      replace (Z.succ r) with (r + 1) by lia.
      rewrite fmap_cons, list_to_set_cons. set_solver.
    + unfold record_round. rewrite !dom_insert_L. set_solver.
Qed.

(** Entries under other keys are left alone. *)
Lemma rounds_frame n : ∀ r h cur tr h' c' tr' k,
  rounds client sp n r h cur tr = (Ok (h', c'), tr') →
  k ≠ "final_content" →
  (∀ i, r ≤ i < r + Z.of_nat n → k ≠ round_key i) →
  h' !! k = h !! k.
Proof.
  induction n as [|n IH]; intros r h cur tr h' c' tr' k Hrun Hk Hround.
  - by injection Hrun as <- _ _.
  - rewrite rounds_S in Hrun.
    destruct (client tr (request sp cur r)) as [text|e]; [|done].
    rewrite (IH _ _ _ _ _ _ _ k Hrun Hk) by (intros i Hi; apply Hround; lia).
    unfold record_round.
    rewrite lookup_insert_ne by done.
    rewrite lookup_insert_ne; [done|].
    intros Heq. apply (Hround r); [lia | done].
Qed.

(** After at least one round, [final_content] and the entry of the last
    round both hold the last answer. *)
Lemma rounds_final n : ∀ r h cur tr h' c' tr',
  rounds client sp (S n) r h cur tr = (Ok (h', c'), tr') →
  h' !! "final_content" = Some c' ∧
  h' !! round_key (r + Z.of_nat n) = Some c'.
Proof.
  induction n as [|n IH]; intros r h cur tr h' c' tr' Hrun;
    rewrite rounds_S in Hrun;
    destruct (client tr (request sp cur r)) as [text|e]; try done.
  - injection Hrun as <- <- _. unfold record_round. rewrite Z.add_0_r.
    rewrite lookup_insert_eq.
    rewrite lookup_insert_ne by (apply not_eq_sym, round_key_not_final).
    by rewrite lookup_insert_eq.
  - apply IH in Hrun as [Hf Hr]. split; [done|].
    by replace (r + Z.of_nat (S n)) with (r + 1 + Z.of_nat n) by lia.
Qed.

(** The entry of the first round holds the answer to the first call. *)
Lemma rounds_first n r h cur tr h' c' tr' :
  rounds client sp (S n) r h cur tr = (Ok (h', c'), tr') →
  ∃ text, client tr (request sp cur r) = Ok text ∧
          h' !! round_key r = Some text.
Proof.
  intros Hrun. rewrite rounds_S in Hrun.
  destruct (client tr (request sp cur r)) as [text|e]; [|done].
  exists text. split; [done|].
  rewrite (rounds_frame _ _ _ _ _ _ _ _ (round_key r) Hrun).
  - unfold record_round.
    rewrite lookup_insert_ne by (apply not_eq_sym, round_key_not_final).
    by rewrite lookup_insert_eq.
  - apply round_key_not_final.
  - intros i Hi Heq. apply round_key_inj in Heq. lia.
Qed.
End RoundsHistory.

(** ** The sequential engine is [rounds] from round 1 *)

Section Sequential.
Variable client : provider.

Lemma for_in_rounds sp (body : Z → gmap string string * string →
                               M (gmap string string * string)) :
  (∀ r h cur tr,
     body r (h, cur) tr =
     (response ← invoke client (request sp cur r);
      mret (record_round r response h, response)) tr) →
  ∀ n a h cur tr,
    for_in (seqZ a (Z.of_nat n)) body (h, cur) tr =
    rounds client sp n a h cur tr.
Proof.
  intros Hbody. induction n as [|n IH]; intros a h cur tr; [done|].
  rewrite (seqZ_cons a (Z.of_nat (S n))) by lia.
  replace (Z.pred (Z.of_nat (S n))) with (Z.of_nat n) by lia.
  replace (Z.succ a) with (a + 1) by lia.
  rewrite rounds_S. simpl. unfold bind at 1.
  rewrite Hbody, bind_invoke.
  destruct (client tr (request sp cur a)) as [text|e]; [|done].
  apply IH.
Qed.

(** The sequential engine performs the rounds [1 .. max_rounds - 1] on the
    initial history. *)
Lemma python_rounds self initial_content system_prompt tr :
  reflection_python.optimize_content client self initial_content
    system_prompt tr =
  map_outcome fst
    (rounds client system_prompt
       (Z.to_nat (reflection_python.max_rounds self - 1)) 1
       (initial_history initial_content) initial_content tr).
Proof.
  unfold reflection_python.optimize_content.
  rewrite reraise_transparent, bind_unfold. unfold range.
  replace (seqZ 1 (reflection_python.max_rounds self - 1)) with
    (seqZ 1 (Z.of_nat (Z.to_nat (reflection_python.max_rounds self - 1))))
    by (unfold seqZ; by rewrite Nat2Z.id).
  rewrite (for_in_rounds system_prompt) by done.
  unfold initial_history, map_outcome.
  by destruct (rounds _ _ _ _ _ _ _) as [[[h c]|e] tr'].
Qed.
End Sequential.

(** ** The graph engine is [rounds] from round 0 *)

Section Graph.
Variable client : provider.
Import reflection_engine.

Lemma next_state_ok sp cur st text :
  state_ok sp cur st → state_ok sp text (next_state st text).
Proof.
  intros [Hhead _]. split; simpl.
  - destruct (messages st) as [|d ds]; [done|]. done.
  - rewrite last_snoc. simpl. by rewrite lookup_insert_eq.
Qed.

Lemma optimize_node self sp cur st tr :
  state_ok sp cur st →
  _optimize_content client self st tr =
  match client tr (request sp cur (current_round st)) with
  | Ok text =>
      (Ok (next_state st text),
       tr ++ [request sp cur (current_round st)])
  | Raise e => (Raise e, tr ++ [request sp cur (current_round st)])
  end.
Proof.
  intros [Hhead Hlast]. unfold _optimize_content.
  rewrite reraise_transparent.
  destruct (head (messages st)) as [d0|] eqn:Hd0; [|done].
  destruct (last (messages st)) as [d1|] eqn:Hd1; [|done].
  simpl in Hhead, Hlast.
  rewrite (list_getitem_first _ _ Hd0), bind_ret.
  rewrite (dict_getitem_Some _ _ _ Hhead), bind_ret.
  rewrite (list_getitem_last _ _ Hd1), bind_ret.
  rewrite (dict_getitem_Some _ _ _ Hlast), bind_ret.
  rewrite prompt_graph. fold (request sp cur (current_round st)).
  rewrite bind_invoke.
  by destruct (client tr (request sp cur (current_round st))).
Qed.

Lemma run_optimize self sp fuel : ∀ st cur tr,
  state_ok sp cur st →
  map_outcome optimization_history
    (run (workflow client self) fuel optimize st tr) =
  graph_outcome fuel (rounds_left self st)
    (rounds client sp (fuel `min` rounds_left self st)
       (current_round st) (optimization_history st) cur tr).
Proof.
  induction fuel as [|fuel IH]; intros st cur tr Hst; [done|].
  assert (Hn : ∃ n, rounds_left self st = S n)
    by (unfold rounds_left; exists (pred (Z.to_nat
          (max_rounds self - current_round st) `max` 1)); lia).
  destruct Hn as [n Hn]. rewrite Hn.
  replace (S fuel `min` S n)%nat with (S (fuel `min` n)) by lia.
  rewrite rounds_S. cbn [run]. rewrite bind_unfold.
  cbn [workflow _create_workflow nodes conditional_edges].
  rewrite (optimize_node self sp cur st tr Hst).
  destruct (client tr (request sp cur (current_round st))) as [text|e];
    [|done].
  unfold _should_continue. cbn [next_state current_round].
  case_bool_decide as Hlt.
  - rewrite (IH _ text _ (next_state_ok _ _ _ _ Hst)).
    assert (Hn' : rounds_left self (next_state st text) = n)
      by (unfold rounds_left in *; cbn [next_state current_round]; lia).
    rewrite Hn'. cbn [next_state current_round optimization_history].
    destruct (rounds _ _ _ _ _ _ _) as [[[h c]|e] tr']; [|done].
    unfold graph_outcome. repeat case_decide; done || lia.
  - assert (n = O) by (unfold rounds_left in Hn; lia). subst n.
    rewrite Nat.min_0_r, rounds_0. unfold graph_outcome.
    destruct fuel as [|fuel]; [done|].
    case_decide; [lia | done].
Qed.

(** The graph engine performs the rounds [0 .. max(max_rounds, 1) - 1] on
    the initial history, provided its step limit is not reached. *)
Lemma graph_rounds fuel self initial_content system_prompt tr :
  reflection_engine.optimize_content client fuel self initial_content
    system_prompt tr =
  graph_outcome fuel (Z.to_nat (max_rounds self) `max` 1)
    (rounds client system_prompt
       (fuel `min` (Z.to_nat (max_rounds self) `max` 1)) 0
       (initial_history initial_content) initial_content tr).
Proof.
  unfold reflection_engine.optimize_content.
  rewrite reraise_transparent. unfold workflow_invoke.
  cbn [workflow _create_workflow entry_point].
  set (st := {| messages := _; current_round := 0 |}).
  assert (Hst : state_ok system_prompt initial_content st)
    by (split; simpl; by rewrite lookup_insert_eq).
  pose proof (run_optimize self system_prompt fuel st initial_content tr
                Hst) as Hrun.
  unfold rounds_left in Hrun. subst st.
  cbn [current_round optimization_history] in Hrun.
  rewrite Z.sub_0_r in Hrun. unfold initial_history. rewrite <- Hrun.
  rewrite bind_unfold. unfold map_outcome, workflow.
  by destruct (run _ _ _ _ _) as [[fs|e] tr'].
Qed.
End Graph.

Lemma map_outcome_trace {A B} (f : A → B) o : (map_outcome f o).2 = o.2.
Proof. reflexivity. Qed.

Lemma graph_outcome_trace fuel n o : (graph_outcome fuel n o).2 = o.2.
Proof. by destruct o as [[[h c]|e] tr']. Qed.

(** ** The contract of the sequential engine *)

Section SequentialContract.
Variable client : provider.
Variable self : reflection_python.ReflectionEngine.
Variables initial_content system_prompt : string.
Variable tr : trace.

Let N := reflection_python.max_rounds self.
Let outcome :=
  reflection_python.optimize_content client self initial_content
    system_prompt tr.

Lemma initial_history_final :
  "final_content" ∈ dom (initial_history initial_content).
Proof. unfold initial_history. rewrite dom_insert_L. set_solver. Qed.

(** With a provider that never fails the engine returns a history. *)
Lemma python_returns :
  never_fails client → ∃ h tr', outcome = (Ok h, tr').
Proof.
  intros Hc. unfold outcome. rewrite python_rounds.
  destruct (rounds_return client system_prompt (Z.to_nat (N - 1)) Hc 1
              (initial_history initial_content) initial_content tr)
    as (h & c & tr' & Hrun).
  unfold N in Hrun. rewrite Hrun. by exists h, tr'.
Qed.

(** A returned history took [max_rounds - 1] calls. *)
Lemma python_call_count h tr' :
  outcome = (Ok h, tr') → 1 ≤ N →
  ∃ calls, tr' = tr ++ calls ∧ Z.of_nat (length calls) = N - 1.
Proof.
  unfold outcome. rewrite python_rounds. intros Hrun HN.
  destruct (rounds _ _ _ _ _ _ _) as [[[h0 c]|e] tr0] eqn:Hr; [|done].
  injection Hrun as -> ->.
  destruct (rounds_calls _ _ _ _ _ _ _ _ _ Hr) as (calls & -> & _ & Hlen).
  exists calls. split; [done|]. rewrite (Hlen _ eq_refl). unfold N. lia.
Qed.

(** Its keys are [round_0 .. round_{max_rounds-1}] and [final_content]. *)
Lemma python_keys h tr' :
  outcome = (Ok h, tr') → 1 ≤ N →
  dom h = list_to_set (round_key <$> seqZ 0 N) ∪ {["final_content"]}.
Proof.
  unfold outcome. rewrite python_rounds. intros Hrun HN.
  destruct (rounds _ _ _ _ _ _ _) as [[[h0 c]|e] tr0] eqn:Hr; [|done].
  injection Hrun as -> ->.
  rewrite (rounds_dom _ _ _ _ _ _ _ _ _ _ Hr initial_history_final).
  fold N. rewrite Z2Nat.id by lia.
  rewrite (seqZ_cons 0 N) by lia.
  replace (Z.succ 0) with 1 by lia. replace (Z.pred N) with (N - 1) by lia.
  unfold initial_history. rewrite dom_insert_L, dom_singleton_L.
  rewrite fmap_cons, list_to_set_cons, round_key_0. set_solver.
Qed.

(** [round_0] is the initial content. *)
Lemma python_round_0 h tr' :
  outcome = (Ok h, tr') → h !! "round_0" = Some initial_content.
Proof.
  unfold outcome. rewrite python_rounds. intros Hrun.
  destruct (rounds _ _ _ _ _ _ _) as [[[h0 c]|e] tr0] eqn:Hr; [|done].
  injection Hrun as -> ->.
  rewrite (rounds_frame _ _ _ _ _ _ _ _ _ _ "round_0" Hr).
  - unfold initial_history. by rewrite lookup_insert_ne.
  - done.
  - intros i Hi. rewrite <- round_key_0. intros Heq.
    apply round_key_inj in Heq. lia.
Qed.

(** [final_content] is the entry of the last round. *)
Lemma python_final h tr' :
  outcome = (Ok h, tr') → 1 ≤ N →
  is_Some (h !! "final_content") ∧
  h !! "final_content" = h !! round_key (N - 1) ∧
  (N = 1 → h !! "final_content" = Some initial_content).
Proof.
  unfold outcome. rewrite python_rounds. intros Hrun HN. fold N in Hrun.
  destruct (Z.to_nat (N - 1)) as [|n] eqn:Hn.
  - rewrite rounds_0 in Hrun. injection Hrun as <- _.
    assert (N = 1) as -> by lia. unfold initial_history.
    change (round_key (1 - 1)) with "round_0".
    rewrite lookup_insert_eq.
    rewrite lookup_insert_ne by done. by rewrite lookup_singleton_eq.
  - destruct (rounds _ _ _ _ _ _ _) as [[[h0 c]|e] tr0] eqn:Hr; [|done].
    injection Hrun as -> ->.
    destruct (rounds_final _ _ _ _ _ _ _ _ _ _ Hr) as [Hf Hl].
    replace (1 + Z.of_nat n) with (N - 1) in Hl by lia.
    rewrite Hf, Hl. split; [done|]. split; [done|]. lia.
Qed.

(** With [max_rounds >= 2] the first call carries the initial content
    and the critique of round 1. *)
Lemma python_first_call :
  2 ≤ N →
  ∃ calls, outcome.2 = tr ++ request system_prompt initial_content 1 :: calls.
Proof.
  intros HN. unfold outcome. rewrite python_rounds. fold N.
  replace (Z.to_nat (N - 1)) with (S (Z.to_nat (N - 2))) by lia.
  destruct (rounds _ _ _ _ _ _ _) as [res tr'] eqn:Hr.
  rewrite rounds_S in Hr.
  destruct (client tr (request system_prompt initial_content 1))
    as [text|e].
  - destruct (rounds_calls _ _ _ _ _ _ _ _ _ Hr) as (calls & -> & _).
    exists calls. unfold map_outcome. simpl. by rewrite <- app_assoc.
  - injection Hr as _ <-. by exists [].
Qed.
End SequentialContract.

(** ** What the graph engine does *)

Section GraphContract.
Variable client : provider.
Variable recursion_limit : nat.
Variable self : reflection_engine.ReflectionEngine.
Variables initial_content system_prompt : string.
Variable tr : trace.

Let N := reflection_engine.max_rounds self.
Let outcome :=
  reflection_engine.optimize_content client recursion_limit self
    initial_content system_prompt tr.

(** A returned history took [max_rounds] calls, and one call when
    [max_rounds] is not positive; the step limit was above that. *)
Lemma graph_call_count h tr' :
  outcome = (Ok h, tr') →
  ∃ calls, tr' = tr ++ calls ∧
           length calls = (Z.to_nat N `max` 1)%nat ∧
           (length calls < recursion_limit)%nat.
Proof.
  unfold outcome. rewrite graph_rounds. fold N. unfold graph_outcome.
  intros Hrun.
  destruct (rounds _ _ _ _ _ _ _) as [[[h0 c]|e] tr0] eqn:Hr; [|done].
  case_decide as Hfuel; [done|]. injection Hrun as -> ->.
  destruct (rounds_calls _ _ _ _ _ _ _ _ _ Hr) as (calls & -> & _ & Hlen).
  exists calls. split; [done|]. rewrite (Hlen _ eq_refl). lia.
Qed.

(** With a provider that never fails and a step limit above the number of
    rounds the engine returns a history. *)
Lemma graph_returns :
  never_fails client → (Z.to_nat N `max` 1 < recursion_limit)%nat →
  ∃ h tr', outcome = (Ok h, tr').
Proof.
  intros Hc Hfuel. unfold outcome. rewrite graph_rounds. fold N.
  destruct (rounds_return client system_prompt
              (recursion_limit `min` (Z.to_nat N `max` 1)) Hc 0
              (initial_history initial_content) initial_content tr)
    as (h & c & tr' & ->).
  unfold graph_outcome. case_decide; [lia|]. by exists h, tr'.
Qed.

(** Its keys are [round_0 .. round_{max_rounds-1}] and [final_content]. *)
Lemma graph_keys h tr' :
  outcome = (Ok h, tr') → 1 ≤ N →
  dom h = list_to_set (round_key <$> seqZ 0 N) ∪ {["final_content"]}.
Proof.
  unfold outcome. rewrite graph_rounds. fold N. unfold graph_outcome.
  intros Hrun HN.
  destruct (rounds _ _ _ _ _ _ _) as [[[h0 c]|e] tr0] eqn:Hr; [|done].
  case_decide as Hfuel; [done|]. injection Hrun as -> ->.
  rewrite (rounds_dom _ _ _ _ _ _ _ _ _ _ Hr
             (initial_history_final initial_content)).
  replace (Z.of_nat (recursion_limit `min` (Z.to_nat N `max` 1)))
    with N by lia.
  rewrite (seqZ_cons 0 N) by lia.
  unfold initial_history. rewrite dom_insert_L, dom_singleton_L.
  rewrite fmap_cons, list_to_set_cons, round_key_0. set_solver.
Qed.

(** [final_content] is the entry of the last round. *)
Lemma graph_final h tr' :
  outcome = (Ok h, tr') → 1 ≤ N →
  is_Some (h !! "final_content") ∧
  h !! "final_content" = h !! round_key (N - 1).
Proof.
  unfold outcome. rewrite graph_rounds. fold N. unfold graph_outcome.
  intros Hrun HN.
  destruct (rounds _ _ _ _ _ _ _) as [[[h0 c]|e] tr0] eqn:Hr; [|done].
  case_decide as Hfuel; [done|]. injection Hrun as -> ->.
  replace (recursion_limit `min` (Z.to_nat N `max` 1))%nat
    with (S (Z.to_nat (N - 1))) in Hr by lia.
  destruct (rounds_final _ _ _ _ _ _ _ _ _ _ Hr) as [Hf Hl].
  replace (0 + Z.of_nat (Z.to_nat (N - 1))) with (N - 1) in Hl by lia.
  by rewrite Hf, Hl.
Qed.

(** The history always has its [final_content]. *)
Lemma graph_has_final h tr' :
  outcome = (Ok h, tr') → is_Some (h !! "final_content").
Proof.
  unfold outcome. rewrite graph_rounds. fold N. unfold graph_outcome.
  intros Hrun.
  destruct (rounds _ _ _ _ _ _ _) as [[[h0 c]|e] tr0] eqn:Hr; [|done].
  case_decide as Hfuel; [done|]. injection Hrun as -> ->.
  apply elem_of_dom.
  rewrite (rounds_dom _ _ _ _ _ _ _ _ _ _ Hr
             (initial_history_final initial_content)).
  apply elem_of_union_l, initial_history_final.
Qed.

(** With a positive step limit the provider is called at least once,
    first with the initial content and the critique of round 0. *)
Lemma graph_first_call :
  (0 < recursion_limit)%nat →
  ∃ calls, outcome.2 = tr ++ request system_prompt initial_content 0 :: calls.
Proof.
  intros Hfuel. unfold outcome.
  rewrite graph_rounds, graph_outcome_trace. fold N.
  replace (recursion_limit `min` (Z.to_nat N `max` 1))%nat
    with (S (pred (recursion_limit `min` (Z.to_nat N `max` 1)))) by lia.
  destruct (rounds _ _ _ _ _ _ _) as [res tr'] eqn:Hr.
  rewrite rounds_S in Hr.
  destruct (client tr (request system_prompt initial_content 0))
    as [text|e].
  - destruct (rounds_calls _ _ _ _ _ _ _ _ _ Hr) as (calls & -> & _).
    exists calls. simpl. by rewrite <- app_assoc.
  - injection Hr as _ <-. by exists [].
Qed.

(** [round_0] of a returned history is the answer to that first call. *)
Lemma graph_round_0 h tr' :
  outcome = (Ok h, tr') →
  ∃ text, client tr (request system_prompt initial_content 0) = Ok text ∧
          h !! "round_0" = Some text.
Proof.
  unfold outcome. rewrite graph_rounds. fold N. unfold graph_outcome.
  intros Hrun.
  destruct (rounds _ _ _ _ _ _ _) as [[[h0 c]|e] tr0] eqn:Hr; [|done].
  case_decide as Hfuel; [done|]. injection Hrun as -> ->.
  replace (recursion_limit `min` (Z.to_nat N `max` 1))%nat
    with (S (pred (Z.to_nat N `max` 1))) in Hr by lia.
  destruct (rounds_first _ _ _ _ _ _ _ _ _ _ Hr) as (t & Ht & Hh).
  exists t. by rewrite <- round_key_0.
Qed.
End GraphContract.

(** ** C1: the two formulations *)

(** On the specification's scenario the sequential engine returns the
    history the specification expects, after two calls. *)
Example python_scenario :
  (reflection_python.optimize_content stub_refined
     (reflection_python.__init__ (Some 3))
     scenario_content scenario_prompt []).1 =
  Ok (<["final_content" := "AI in education+refined1+refined2"]>
      (<["round_2" := "AI in education+refined1+refined2"]>
       (<["round_1" := "AI in education+refined1"]>
        {["round_0" := "AI in education"]}))).
Proof. vm_compute. reflexivity. Qed.

(** Whenever both engines return, they agree on [round_0] only if the
    provider's answer to the graph engine's first call is the initial content
    itself. *)
Lemma formulations_round_0 client recursion_limit self_py self_gr ic sp tr
    h_py tr_py h_gr tr_gr text :
  reflection_python.optimize_content client self_py ic sp tr
    = (Ok h_py, tr_py) →
  reflection_engine.optimize_content client recursion_limit self_gr ic sp tr
    = (Ok h_gr, tr_gr) →
  client tr (request sp ic 0) = Ok text →
  h_py !! "round_0" = Some ic ∧ h_gr !! "round_0" = Some text.
Proof.
  intros Hpy Hgr Hfirst. split.
  - by apply (python_round_0 _ _ _ _ _ _ _ Hpy).
  - destruct (graph_round_0 _ _ _ _ _ _ _ _ Hgr) as (t & Ht & Hh). congruence.
Qed.

(** C1 (the code departs from the claim). On the specification's scenario
    with its stub provider and the default [max_rounds = 3], the sequential
    engine and the graph engine return different histories: the graph
    engine calls the provider three times instead of two and stores the
    first answer under [round_0], where the sequential engine keeps the
    initial content. *)
Theorem formulations_disagree_on_scenario :
  let sequential :=
    reflection_python.optimize_content stub_refined
      (reflection_python.__init__ None) scenario_content scenario_prompt [] in
  let graph :=
    reflection_engine.optimize_content stub_refined 25
      (reflection_engine.__init__ None) scenario_content scenario_prompt [] in
  sequential.1 =
    Ok (<["final_content" := "AI in education+refined1+refined2"]>
        (<["round_2" := "AI in education+refined1+refined2"]>
         (<["round_1" := "AI in education+refined1"]>
          {["round_0" := "AI in education"]}))) ∧
  graph.1 =
    Ok (<["final_content" := "AI in education+refined1+refined2+refined3"]>
        (<["round_2" := "AI in education+refined1+refined2+refined3"]>
         (<["round_1" := "AI in education+refined1+refined2"]>
          {["round_0" := "AI in education+refined1"]}))) ∧
  length sequential.2 = 2%nat ∧ length graph.2 = 3%nat ∧
  sequential.1 ≠ graph.1.
Proof.
  vm_compute. repeat split; try reflexivity. discriminate.
Qed.

(** ** C2: number of calls and keys *)

(** The sequential engine keeps the claim: with [max_rounds = N >= 1] and a
    provider that never fails it returns a history after exactly [N - 1]
    calls, with the keys [round_0 .. round_{N-1}] and [final_content]. *)
Lemma python_calls_and_keys client self ic sp tr :
  never_fails client → 1 ≤ reflection_python.max_rounds self →
  ∃ h calls,
    reflection_python.optimize_content client self ic sp tr
      = (Ok h, tr ++ calls) ∧
    Z.of_nat (length calls) = reflection_python.max_rounds self - 1 ∧
    dom h = list_to_set (round_key <$> seqZ 0 (reflection_python.max_rounds self))
            ∪ {["final_content"]}.
Proof.
  intros Hc HN.
  destruct (python_returns client self ic sp tr Hc) as (h & tr' & Hrun).
  destruct (python_call_count _ _ _ _ _ _ _ Hrun HN) as (calls & -> & Hlen).
  exists h, calls. split; [done|]. split; [done|].
  by apply (python_keys _ _ _ _ _ _ _ Hrun).
Qed.

(** The graph engine has the same keys but makes one call more: with
    [max_rounds = N >= 1], a provider that never fails and a step limit
    above [N] it returns a history after exactly [N] calls. *)
Lemma graph_calls_and_keys client recursion_limit self ic sp tr :
  never_fails client → 1 ≤ reflection_engine.max_rounds self →
  (Z.to_nat (reflection_engine.max_rounds self) < recursion_limit)%nat →
  ∃ h calls,
    reflection_engine.optimize_content client recursion_limit self ic sp tr
      = (Ok h, tr ++ calls) ∧
    Z.of_nat (length calls) = reflection_engine.max_rounds self ∧
    dom h = list_to_set (round_key <$> seqZ 0 (reflection_engine.max_rounds self))
            ∪ {["final_content"]}.
Proof.
  intros Hc HN Hfuel.
  destruct (graph_returns client recursion_limit self ic sp tr Hc)
    as (h & tr' & Hrun); [lia|].
  destruct (graph_call_count _ _ _ _ _ _ _ _ Hrun) as (calls & -> & Hlen & _).
  exists h, calls. split; [done|]. split; [lia|].
  by apply (graph_keys _ _ _ _ _ _ _ _ Hrun).
Qed.

(** C2 (the code departs from the claim). With [max_rounds = 1] the graph
    engine calls the provider once, with the initial content, where the
    claim has no call at all; the keys of the history it returns are the
    claimed ones, [round_0] and [final_content]. *)
Theorem graph_one_round_calls_provider :
  let graph :=
    reflection_engine.optimize_content stub_refined 25
      (reflection_engine.__init__ (Some 1)) scenario_content
      scenario_prompt [] in
  graph.2 = [request scenario_prompt scenario_content 0] ∧
  ∃ h, graph.1 = Ok h ∧ dom h = {["round_0"; "final_content"]}.
Proof.
  split; [vm_compute; reflexivity|].
  exists (<["final_content" := "AI in education+refined1"]>
            {["round_0" := "AI in education+refined1"]}).
  split; [vm_compute; reflexivity|].
  rewrite dom_insert_L, dom_singleton_L. set_solver.
Qed.

(** ** C3: what is stored under [round_0] *)

(** C3 (the code departs from the claim). On the specification's scenario
    the graph engine returns a history whose [round_0] is the provider's
    first answer, not the initial content. *)
Theorem graph_round_0_is_generated :
  ∃ h,
    (reflection_engine.optimize_content stub_refined 25
       (reflection_engine.__init__ None) scenario_content
       scenario_prompt []).1 = Ok h ∧
    h !! "round_0" = Some "AI in education+refined1" ∧
    h !! "round_0" ≠ Some scenario_content.
Proof.
  eexists. split; [vm_compute; reflexivity|].
  split; [vm_compute; reflexivity|]. vm_compute. discriminate.
Qed.

(** ** C5: [final_content] *)

(** In both engines a returned history with [max_rounds = N >= 1] has its
    [final_content] equal to the entry of [round_{N-1}]; in the sequential
    engine this is the initial content when [N = 1]. *)
Lemma final_content_is_last_round client recursion_limit self_py self_gr
    ic sp tr :
  (∀ h tr', 1 ≤ reflection_python.max_rounds self_py →
     reflection_python.optimize_content client self_py ic sp tr = (Ok h, tr') →
     h !! "final_content" =
       h !! round_key (reflection_python.max_rounds self_py - 1) ∧
     (reflection_python.max_rounds self_py = 1 →
      h !! "final_content" = Some ic)) ∧
  (∀ h tr', 1 ≤ reflection_engine.max_rounds self_gr →
     reflection_engine.optimize_content client recursion_limit self_gr
       ic sp tr = (Ok h, tr') →
     h !! "final_content" =
       h !! round_key (reflection_engine.max_rounds self_gr - 1)).
Proof.
  split.
  - intros h tr' HN Hrun.
    by destruct (python_final _ _ _ _ _ _ _ Hrun HN) as (_ & ? & ?).
  - intros h tr' HN Hrun.
    by destruct (graph_final _ _ _ _ _ _ _ _ Hrun HN) as (_ & ?).
Qed.

(** C5 (the code departs from the claim). With [max_rounds = 1] the graph
    engine returns a history whose [final_content] equals its [round_0], as
    claimed, but both hold the provider's answer and not the initial
    content. *)
Theorem graph_one_round_final_content :
  ∃ h,
    (reflection_engine.optimize_content stub_refined 25
       (reflection_engine.__init__ (Some 1)) scenario_content
       scenario_prompt []).1 = Ok h ∧
    h !! "final_content" = h !! "round_0" ∧
    h !! "final_content" = Some "AI in education+refined1" ∧
    h !! "final_content" ≠ Some scenario_content.
Proof.
  eexists. split; [vm_compute; reflexivity|].
  repeat split; try (vm_compute; reflexivity). vm_compute. discriminate.
Qed.

(** ** C9: the graph engine always performs round 0 *)

(** C9. In the graph engine the entry point of the workflow is the node
    [optimize]. For every [max_rounds], positive or not, and every positive
    step limit, a run calls the provider at least once, first with the
    system prompt, the initial content and the critique of round 0; a
    history that is returned holds the answer to that call under
    [round_0]. *)
Theorem graph_always_performs_round_0 client recursion_limit self ic sp tr :
  (0 < recursion_limit)%nat →
  let outcome :=
    reflection_engine.optimize_content client recursion_limit self ic sp tr in
  reflection_engine.entry_point (reflection_engine.workflow client self)
    = reflection_engine.optimize ∧
  (∃ calls, outcome.2 = tr ++ request sp ic 0 :: calls) ∧
  (∀ h, outcome.1 = Ok h →
     ∃ text, client tr (request sp ic 0) = Ok text ∧
             h !! "round_0" = Some text).
Proof.
  intros Hfuel outcome. split; [done|]. split.
  - by apply graph_first_call.
  - intros h Hh. destruct outcome as [res tr'] eqn:Hrun. simpl in Hh. subst res.
    apply (graph_round_0 _ _ _ _ _ _ _ _ Hrun).
Qed.

(** The claim at [max_rounds = 0], with the stub provider and langgraph's
    default step limit. *)
Lemma graph_always_performs_round_0_witness :
  (0 < 25)%nat ∧
  let outcome :=
    reflection_engine.optimize_content stub_refined 25
      (reflection_engine.__init__ (Some 0)) scenario_content
      scenario_prompt [] in
  reflection_engine.entry_point
    (reflection_engine.workflow stub_refined
       (reflection_engine.__init__ (Some 0)))
    = reflection_engine.optimize ∧
  (∃ calls,
     outcome.2 = [] ++ request scenario_prompt scenario_content 0 :: calls) ∧
  (∀ h, outcome.1 = Ok h →
     ∃ text,
       stub_refined [] (request scenario_prompt scenario_content 0) = Ok text ∧
       h !! "round_0" = Some text).
Proof.
  split; [lia|].
  apply (graph_always_performs_round_0 stub_refined 25
           (reflection_engine.__init__ (Some 0)) scenario_content
           scenario_prompt []).
  lia.
Defined.

(** ** C4: a failing provider *)

(** C4 as stated fails: the exception that reaches the caller does not tell
    which round failed. There is no way to read the number of the failing
    round off the raised exception: a provider that is down from the start
    and one that goes down after its first answer make the sequential
    engine raise the very same exception, in round 1 and in round 2. *)
Lemma raised_exception_carries_no_round :
  ¬ ∃ failed_round : exn → nat,
      ∀ client self ic sp e calls,
        reflection_python.optimize_content client self ic sp []
          = (Raise e, calls) →
        failed_round e = length calls.
Proof.
  intros [failed_round Hround].
  set (e := ProviderError "APIConnectionError" "Connection error.").
  assert (H1 : reflection_python.optimize_content stub_down
                 (reflection_python.__init__ None)
                 scenario_content scenario_prompt [] =
               (Raise e, [request scenario_prompt scenario_content 1]))
    by (vm_compute; reflexivity).
  assert (H2 : reflection_python.optimize_content (stub_down_after 1)
                 (reflection_python.__init__ None)
                 scenario_content scenario_prompt [] =
               (Raise e,
                [request scenario_prompt scenario_content 1;
                 request scenario_prompt "AI in education+refined1" 2]))
    by (vm_compute; reflexivity).
  apply Hround in H1, H2. simpl in H1, H2. congruence.
Qed.

(** C4, amended. In both engines, when a call to the provider raises, that
    call is the last one of the run (nothing is retried and no further round
    is started) and [optimize_content] raises exactly the exception the
    provider raised, unchanged and without round information; hence no
    history is returned. *)
Theorem generation_failure_aborts_run client recursion_limit self_py self_gr
    ic sp tr :
  (∀ pre m post e,
     (reflection_python.optimize_content client self_py ic sp tr).2
       = tr ++ pre ++ m :: post →
     client (tr ++ pre) m = Raise e →
     post = [] ∧
     (reflection_python.optimize_content client self_py ic sp tr).1
       = Raise e) ∧
  (∀ pre m post e,
     (reflection_engine.optimize_content client recursion_limit self_gr
        ic sp tr).2 = tr ++ pre ++ m :: post →
     client (tr ++ pre) m = Raise e →
     post = [] ∧
     (reflection_engine.optimize_content client recursion_limit self_gr
        ic sp tr).1 = Raise e).
Proof.
  split; intros pre m post e Htr Hm.
  - rewrite python_rounds in *. rewrite map_outcome_trace in Htr.
    destruct (rounds _ _ _ _ _ _ _) as [res tr'] eqn:Hr. simpl in Htr.
    subst tr'.
    destruct (rounds_fail_stop _ _ _ _ _ _ _ _ _ _ _ _ Hr Hm) as [-> ->].
    done.
  - rewrite graph_rounds in *. rewrite graph_outcome_trace in Htr.
    destruct (rounds _ _ _ _ _ _ _) as [res tr'] eqn:Hr. simpl in Htr.
    subst tr'.
    destruct (rounds_fail_stop _ _ _ _ _ _ _ _ _ _ _ _ Hr Hm) as [-> ->].
    done.
Qed.

(** The amended claim on a provider that goes down after its first answer:
    the sequential engine fails in its second call, the graph engine too. *)
Lemma generation_failure_aborts_run_witness :
  let e := ProviderError "APIConnectionError" "Connection error." in
  (reflection_python.optimize_content (stub_down_after 1)
     (reflection_python.__init__ None) scenario_content scenario_prompt []).1
    = Raise e ∧
  (reflection_engine.optimize_content (stub_down_after 1) 25
     (reflection_engine.__init__ None) scenario_content scenario_prompt []).1
    = Raise e.
Proof.
  intros e.
  destruct (generation_failure_aborts_run (stub_down_after 1) 25
              (reflection_python.__init__ None)
              (reflection_engine.__init__ None)
              scenario_content scenario_prompt []) as [Hpy Hgr].
  split.
  - apply (Hpy [request scenario_prompt scenario_content 1]
               (request scenario_prompt "AI in education+refined1" 2) [] e);
      vm_compute; reflexivity.
  - apply (Hgr [request scenario_prompt scenario_content 0]
               (request scenario_prompt "AI in education+refined1" 1) [] e);
      vm_compute; reflexivity.
Defined.

(** ** C6: empty initial content *)

(** C6 as stated fails: with an empty initial content and the default
    [max_rounds] neither engine raises; both call the provider and return a
    history. *)
Lemma empty_content_is_not_rejected :
  ¬ (∀ client self sp tr, ∃ e,
       reflection_python.optimize_content client self "" sp tr
         = (Raise e, tr)) ∧
  ¬ (∀ client recursion_limit self sp tr, ∃ e,
       reflection_engine.optimize_content client recursion_limit self "" sp tr
         = (Raise e, tr)).
Proof.
  split.
  - intros H.
    destruct (H stub_refined (reflection_python.__init__ None)
                scenario_prompt []) as [e He].
    vm_compute in He. discriminate.
  - intros H.
    destruct (H stub_refined 25%nat (reflection_engine.__init__ None)
                scenario_prompt []) as [e He].
    vm_compute in He. discriminate.
Qed.

(** C6, amended. [optimize_content] does not check its input: an empty
    initial content is processed like any other text. The sequential engine
    records it under [round_0] and, when [max_rounds >= 2], first calls the
    provider with an empty user message; the graph engine always does. The
    empty input is rejected before any call to the provider only by the UI
    handler [generate_contents], which raises [gr.Error("请输入内容")]. *)
Theorem empty_content_rejected_only_by_handler client recursion_limit
    chat_agent history self_py self_gr sp tr :
  gradiobak.generate_contents client recursion_limit chat_agent
    (gradiobak.MsgStr "") history tr
    = (Raise (GrError "请输入内容"), tr) ∧
  (∀ h tr',
     reflection_python.optimize_content client self_py "" sp tr = (Ok h, tr') →
     h !! "round_0" = Some "") ∧
  (2 ≤ reflection_python.max_rounds self_py →
   ∃ calls,
     (reflection_python.optimize_content client self_py "" sp tr).2
       = tr ++ request sp "" 1 :: calls) ∧
  ((0 < recursion_limit)%nat →
   ∃ calls,
     (reflection_engine.optimize_content client recursion_limit self_gr
        "" sp tr).2 = tr ++ request sp "" 0 :: calls).
Proof.
  split; [done|]. split; [|split].
  - intros h tr' Hrun. by apply (python_round_0 _ _ _ _ _ _ _ Hrun).
  - apply python_first_call.
  - apply graph_first_call.
Qed.

(** The amended claim with the stub provider and the default engines. *)
Lemma empty_content_rejected_only_by_handler_witness :
  gradiobak.generate_contents stub_refined 25 demo_agent
    (gradiobak.MsgStr "") [] []
    = (Raise (GrError "请输入内容"), []) ∧
  (∃ h, (reflection_python.optimize_content stub_refined
           (reflection_python.__init__ None) "" scenario_prompt []).1 = Ok h ∧
        h !! "round_0" = Some "") ∧
  (∃ calls,
     (reflection_python.optimize_content stub_refined
        (reflection_python.__init__ None) "" scenario_prompt []).2
       = [] ++ request scenario_prompt "" 1 :: calls) ∧
  (∃ calls,
     (reflection_engine.optimize_content stub_refined 25
        (reflection_engine.__init__ None) "" scenario_prompt []).2
       = [] ++ request scenario_prompt "" 0 :: calls).
Proof.
  destruct (empty_content_rejected_only_by_handler stub_refined 25 demo_agent
              [] (reflection_python.__init__ None)
              (reflection_engine.__init__ None) scenario_prompt [])
    as (Hui & Hround & Hpy & Hgr).
  split; [exact Hui|]. split; [|split].
  - destruct (reflection_python.optimize_content stub_refined
                (reflection_python.__init__ None) "" scenario_prompt [])
      as [res tr'] eqn:Hrun.
    assert (Hres : ∃ h, res = Ok h)
      by (vm_compute in Hrun; injection Hrun as <- _; by eexists).
    destruct Hres as [h ->]. exists h. split; [done|].
    apply (Hround h tr' eq_refl).
  - apply Hpy. simpl. lia.
  - apply Hgr. lia.
Defined.

(** ** C7: the message list of a round *)



(** ** C8: the chat orchestrator *)

(** [chat_with_history] in terms of the engine's outcome. *)
Lemma chat_with_history_outcome client recursion_limit bot text tr :
  chatbot.chat_with_history client recursion_limit bot text tr =
  match reflection_engine.optimize_content client recursion_limit
          (chatbot.engine bot) text (chatbot.prompt bot) tr with
  | (Ok h, tr') =>
      (match h !! "final_content" with
       | Some reply => Ok reply
       | None => Raise (KeyError "final_content")
       end, tr')
  | (Raise e, tr') => (Raise e, tr')
  end.
Proof.
  unfold chatbot.chat_with_history.
  rewrite reraise_transparent, bind_unfold.
  destruct (reflection_engine.optimize_content _ _ _ _ _ _)
    as [[h|e] tr']; [|done].
  rewrite bind_unfold. unfold dict_getitem.
  by destruct (h !! "final_content").
Qed.

(** C8. A [ChatBot] built without a session id has the session id
    ["default_session_id"]; its system prompt is the stripped text of its
    prompt file and its engine is the graph engine with the default
    [max_rounds]. [chat_with_history] runs that engine's [optimize_content]
    on the user's text with the system prompt: when the engine returns a
    history, the reply is the history's [final_content]; when the engine
    raises, [chat_with_history] raises the same exception. *)
Theorem chat_with_history_returns_final_content client recursion_limit
    files strip :
  (∀ prompt_file environ bot environ',
     chatbot.__init__ files strip prompt_file None environ
       = (Ok bot, environ') →
     chatbot.session_id bot = "default_session_id" ∧
     chatbot.engine bot = reflection_engine.__init__ None ∧
     ∃ text,
       files !! default "./prompts/chatbot.txt" prompt_file = Some text ∧
       chatbot.prompt bot = strip text) ∧
  (∀ bot text tr h tr',
     reflection_engine.optimize_content client recursion_limit
       (chatbot.engine bot) text (chatbot.prompt bot) tr = (Ok h, tr') →
     ∃ reply,
       h !! "final_content" = Some reply ∧
       chatbot.chat_with_history client recursion_limit bot text tr
         = (Ok reply, tr')) ∧
  (∀ bot text tr e tr',
     reflection_engine.optimize_content client recursion_limit
       (chatbot.engine bot) text (chatbot.prompt bot) tr = (Raise e, tr') →
     chatbot.chat_with_history client recursion_limit bot text tr
       = (Raise e, tr')).
Proof.
  split; [|split].
  - intros prompt_file environ bot environ'. unfold chatbot.__init__.
    destruct (negb _); [done|]. unfold chatbot.load_prompt.
    destruct (files !! default "./prompts/chatbot.txt" prompt_file)
      as [content|] eqn:Hfile; [|done].
    intros [= <- _]. simpl. split; [done|]. split; [done|]. by exists content.
  - intros bot text tr h tr' Hrun.
    rewrite chat_with_history_outcome, Hrun.
    destruct (graph_has_final _ _ _ _ _ _ _ _ Hrun) as [reply Hreply].
    exists reply. by rewrite Hreply.
  - intros bot text tr e tr' Hrun.
    by rewrite chat_with_history_outcome, Hrun.
Qed.

(** The claim on the configured installation, with the stub provider. *)
Lemma chat_with_history_returns_final_content_witness :
  (∃ bot,
     (chatbot.__init__ demo_files (λ s, s) None None demo_environ).1 = Ok bot ∧
     chatbot.session_id bot = "default_session_id" ∧
     chatbot.prompt bot = scenario_prompt) ∧
  chatbot.chat_with_history stub_refined 25 demo_agent scenario_content []
    = (Ok "AI in education+refined1+refined2+refined3",
       [ request scenario_prompt scenario_content 0;
         request scenario_prompt "AI in education+refined1" 1;
         request scenario_prompt "AI in education+refined1+refined2" 2 ]) ∧
  chatbot.chat_with_history stub_down 25 demo_agent scenario_content []
    = (Raise (ProviderError "APIConnectionError" "Connection error."),
       [ request scenario_prompt scenario_content 0 ]).
Proof.
  split; [|split].
  - destruct (chat_with_history_returns_final_content stub_refined 25
                demo_files (λ s, s)) as (Hinit & _ & _).
    destruct (Hinit None demo_environ demo_agent
                (<["OPENAI_API_BASE" := "https://api.javis3000.com/v1"]>
                   demo_environ) eq_refl) as (Hsession & _ & text & _ & _).
    exists demo_agent. split; [reflexivity|]. split; [exact Hsession|].
    reflexivity.
  - destruct (chat_with_history_returns_final_content stub_refined 25
                demo_files (λ s, s)) as (_ & Hok & _).
    destruct (Hok demo_agent scenario_content []
                (<["final_content" :=
                     "AI in education+refined1+refined2+refined3"]>
                 (<["round_2" :=
                      "AI in education+refined1+refined2+refined3"]>
                  (<["round_1" := "AI in education+refined1+refined2"]>
                   {["round_0" := "AI in education+refined1"]})))
                [ request scenario_prompt scenario_content 0;
                  request scenario_prompt "AI in education+refined1" 1;
                  request scenario_prompt
                    "AI in education+refined1+refined2" 2 ])
      as (reply & Hreply & Hchat); [vm_compute; reflexivity|].
    vm_compute in Hreply. injection Hreply as <-. exact Hchat.
  - destruct (chat_with_history_returns_final_content stub_down 25
                demo_files (λ s, s)) as (_ & _ & Hraise).
    apply Hraise. vm_compute. reflexivity.
Defined.

(** ** C10: the text handler and the reply *)

(** [messages[1]["content"]] on a [str] raises [IndexError] or
    [TypeError]. *)
Lemma str_item_content_raises (reply : string) tr :
  ∃ e, (second ← str_getitem reply 1; str_getitem_str second "content") tr
         = (Raise e, tr) ∧
       (e = IndexError ∨ e = TypeError "string indices must be integers").
Proof.
  rewrite bind_unfold. unfold str_getitem.
  destruct (str_chars reply !! 1%nat) as [c|].
  - exists (TypeError "string indices must be integers"). split; [done|].
    by right.
  - exists IndexError. split; [done|]. by left.
Qed.

(** The handler on a non-empty text, in terms of the chat agent's
    outcome. *)
Lemma generate_contents_outcome client recursion_limit chat_agent message
    history tr :
  message_text message ≠ "" →
  gradiobak.generate_contents client recursion_limit chat_agent message
    history tr =
  match chatbot.chat_with_history client recursion_limit chat_agent
          (message_text message) tr with
  | (Ok reply, tr') => (Raise (GrError "网络问题，请重试:)"), tr')
  | (Raise e, tr') => (Raise (handled e), tr')
  end.
Proof.
  intros Htext. unfold gradiobak.generate_contents, try_except.
  fold (message_text message).
  assert (Htruthy : truthy (message_text message) = true)
    by (by destruct (message_text message)).
  rewrite Htruthy. cbn [negb]. rewrite bind_ret, bind_unfold.
  destruct (chatbot.chat_with_history _ _ _ _ _) as [[reply|e] tr'].
  - rewrite bind_unfold.
    destruct (str_item_content_raises reply tr') as (e & He & Hcase).
    rewrite bind_unfold in He.
    destruct (str_getitem reply 1 tr') as [[c|e1] tr1] eqn:Hitem.
    + rewrite bind_unfold.
      destruct (str_getitem_str c "content" tr1) as [[c'|e2] tr2]; [done|].
      injection He as -> ->. by destruct Hcase as [-> | ->].
    + injection He as -> ->. by destruct Hcase as [-> | ->].
  - unfold handled, raise.
    destruct (is_gr_Error e); [done|]. by destruct (is_Exception e).
Qed.

(** An exception raised by the chat agent is the step limit of the
    workflow, a missing key, or an exception of the provider. *)
Lemma chat_with_history_raises client recursion_limit bot text tr e tr' :
  chatbot.chat_with_history client recursion_limit bot text tr
    = (Raise e, tr') →
  e = GraphRecursionError ∨ e = KeyError "final_content" ∨
  ∃ tr0 messages, client tr0 messages = Raise e.
Proof.
  rewrite chat_with_history_outcome.
  destruct (reflection_engine.optimize_content _ _ _ _ _ _)
    as [[h|e0] tr0] eqn:Hrun.
  - destruct (h !! "final_content"); [done|]. intros [= <- _]. by right; left.
  - intros [= -> ->]. rewrite graph_rounds in Hrun.
    unfold graph_outcome in Hrun.
    destruct (rounds _ _ _ _ _ _ _) as [[[h c]|e1] tr1] eqn:Hr.
    + case_decide; [|done]. injection Hrun as <- _. by left.
    + injection Hrun as -> ->.
      destruct (rounds_raise _ _ _ _ _ _ _ _ _ Hr) as (pre & m & _ & Hm).
      right; right. by exists (tr ++ pre), m.
Qed.

(** C10. [chat_with_history] returns a [str], and the handler's
    [messages[1]["content"]] on a [str] raises [IndexError] or [TypeError].
    So for every non-empty text [generate_contents] never returns a reply:
    it raises, and what it raises is the generic
    [gr.Error("网络问题，请重试:)")] whenever the provider's failures are
    ordinary exceptions. *)
Theorem text_input_never_gets_reply client recursion_limit chat_agent
    message history tr :
  message_text message ≠ "" →
  (∀ reply tr0,
     ∃ e, (second ← str_getitem reply 1;
           str_getitem_str second "content") tr0 = (Raise e, tr0) ∧
          (e = IndexError ∨ e = TypeError "string indices must be integers")) ∧
  (∃ e tr',
     gradiobak.generate_contents client recursion_limit chat_agent message
       history tr = (Raise e, tr')) ∧
  (raises_ordinary_exceptions client →
   ∃ tr',
     gradiobak.generate_contents client recursion_limit chat_agent message
       history tr = (Raise (GrError "网络问题，请重试:)"), tr')).
Proof.
  intros Htext. split; [intros; apply str_item_content_raises|].
  rewrite (generate_contents_outcome _ _ _ _ _ _ Htext).
  destruct (chatbot.chat_with_history _ _ _ _ _) as [[reply|e] tr'] eqn:Hchat.
  - split; [by eexists _, _|]. intros _. by eexists.
  - split; [by eexists _, _|]. intros Hclient. exists tr'.
    destruct (chat_with_history_raises _ _ _ _ _ _ _ Hchat)
      as [-> | [-> | (tr0 & m & Hm)]]; [done | done |].
    destruct (Hclient _ _ _ Hm) as [Hexc Hgr].
    unfold handled. by rewrite Hgr, Hexc.
Qed.

Lemma stub_refined_ordinary : raises_ordinary_exceptions stub_refined.
Proof.
  intros tr messages e. unfold stub_refined.
  destruct messages as [|m1 [|[]]]; try by intros [= <-].
  destruct l as [|m3 [|]]; by intros [= <-].
Qed.

(** The claim on the specification's scenario: the three rounds run, and
    the handler raises the generic error instead of returning the reply. *)
Lemma text_input_never_gets_reply_witness :
  message_text (gradiobak.MsgStr scenario_content) ≠ "" ∧
  gradiobak.generate_contents stub_refined 25 demo_agent
    (gradiobak.MsgStr scenario_content) [] []
  = (Raise (GrError "网络问题，请重试:)"),
     [ request scenario_prompt scenario_content 0;
       request scenario_prompt "AI in education+refined1" 1;
       request scenario_prompt "AI in education+refined1+refined2" 2 ]).
Proof.
  split; [discriminate|].
  destruct (text_input_never_gets_reply stub_refined 25 demo_agent
              (gradiobak.MsgStr scenario_content) [] [])
    as (_ & _ & Hgeneric); [discriminate|].
  destruct (Hgeneric stub_refined_ordinary) as [tr' Hrun].
  rewrite Hrun. f_equal.
  apply (f_equal snd) in Hrun. vm_compute in Hrun. by subst tr'.
Defined.

(** * Further properties of the code *)

(** ** The engines *)

Lemma stub_total_never_fails : never_fails stub_total.
Proof. intros tr messages. by eexists. Qed.

(** X1. With [max_rounds <= 1], zero and negative values included, the
    sequential engine makes no call at all, whatever the provider, and
    returns the history that holds the initial content under [round_0] and
    [final_content]. *)
Theorem python_without_rounds client self ic sp tr :
  reflection_python.max_rounds self ≤ 1 →
  reflection_python.optimize_content client self ic sp tr
    = (Ok (<["final_content" := ic]> {["round_0" := ic]}), tr).
Proof.
  intros HN. rewrite python_rounds.
  replace (Z.to_nat (reflection_python.max_rounds self - 1)) with O by lia.
  reflexivity.
Qed.

Lemma python_without_rounds_witness :
  -2 ≤ 1 ∧
  reflection_python.optimize_content stub_down
    (reflection_python.__init__ (Some (-2))) scenario_content
    scenario_prompt []
    = (Ok (<["final_content" := scenario_content]>
             {["round_0" := scenario_content]}), []).
Proof.
  split; [lia|].
  apply (python_without_rounds stub_down
           (reflection_python.__init__ (Some (-2)))). simpl. lia.
Defined.

(** X2. The sequential engine with [max_rounds = N >= 1] and a provider that
    never fails returns a history after exactly [N - 1] calls; its keys are
    [round_0 .. round_{N-1}] and [final_content]. *)
Theorem python_contract client self ic sp tr :
  never_fails client → 1 ≤ reflection_python.max_rounds self →
  ∃ h calls,
    reflection_python.optimize_content client self ic sp tr
      = (Ok h, tr ++ calls) ∧
    Z.of_nat (length calls) = reflection_python.max_rounds self - 1 ∧
    dom h = list_to_set (round_key <$> seqZ 0 (reflection_python.max_rounds self))
            ∪ {["final_content"]} ∧
    size (dom h) = Z.to_nat (reflection_python.max_rounds self + 1).
Proof.
  intros Hc HN.
  destruct (python_returns client self ic sp tr Hc) as (h & tr' & Hrun).
  destruct (python_call_count _ _ _ _ _ _ _ Hrun HN) as (calls & -> & Hlen).
  exists h, calls. split; [done|]. split; [done|].
  pose proof (python_keys _ _ _ _ _ _ _ Hrun HN) as Hdom.
  split; [done|]. rewrite Hdom.
  rewrite size_union.
  - rewrite size_singleton, size_list_to_set.
    + rewrite length_fmap, length_seqZ. lia.
    + apply (NoDup_fmap_2 round_key), NoDup_seqZ.
  - intros k Hk Hfinal. apply elem_of_singleton in Hfinal. subst k.
    apply elem_of_list_to_set, list_elem_of_fmap in Hk as (i & Hi & _).
    by destruct (round_key_not_final i).
Qed.

Lemma python_contract_witness :
  never_fails stub_total ∧ 1 ≤ 4 ∧
  ∃ h calls,
    reflection_python.optimize_content stub_total
      (reflection_python.__init__ (Some 4)) scenario_content
      scenario_prompt [] = (Ok h, [] ++ calls) ∧
    Z.of_nat (length calls) = 4 - 1 ∧
    dom h = list_to_set (round_key <$> seqZ 0 4) ∪ {["final_content"]} ∧
    size (dom h) = 5%nat.
Proof.
  split; [apply stub_total_never_fails|]. split; [lia|].
  apply (python_contract stub_total (reflection_python.__init__ (Some 4))
           scenario_content scenario_prompt []).
  - apply stub_total_never_fails.
  - simpl. lia.
Defined.



(** Each round is built on the one before: in a run of [n] rounds that
    returns, the [i]-th call submits the content of the round before (the
    starting content for the first call) and its answer is the entry of
    round [r + i]. *)
Lemma rounds_chain client sp n : ∀ r h cur tr h' c' calls,
  rounds client sp n r h cur tr = (Ok (h', c'), tr ++ calls) →
  ∀ i : nat, (i < n)%nat →
    ∃ prev text,
      (i = O → prev = cur) ∧
      (∀ j : nat, i = S j → h' !! round_key (r + Z.of_nat j) = Some prev) ∧
      calls !! i = Some (request sp prev (r + Z.of_nat i)) ∧
      client (tr ++ take i calls) (request sp prev (r + Z.of_nat i))
        = Ok text ∧
      h' !! round_key (r + Z.of_nat i) = Some text.
Proof.
  induction n as [|n IH]; intros r h cur tr h' c' calls Hrun i Hi; [lia|].
  destruct (rounds_first _ _ _ _ _ _ _ _ _ _ Hrun) as (text0 & Hfirst & Hr0).
  rewrite rounds_S, Hfirst in Hrun.
  destruct (rounds_calls _ _ _ _ _ _ _ _ _ Hrun) as (calls' & Htr & _).
  rewrite <- app_assoc in Htr. apply (inj (app tr)) in Htr.
  simpl in Htr. subst calls.
  replace (tr ++ request sp cur r :: calls')
    with ((tr ++ [request sp cur r]) ++ calls') in Hrun
    by by rewrite <- app_assoc.
  destruct i as [|i].
  - exists cur, text0. rewrite Z.add_0_r, app_nil_r.
    split; [done|]. split; [discriminate|]. done.
  - destruct (IH _ _ _ _ _ _ _ Hrun i ltac:(lia))
      as (prev & text & H0 & HS & Hcall & Hanswer & Hentry).
    exists prev, text.
    replace (r + Z.of_nat (S i)) with (r + 1 + Z.of_nat i) by lia.
    split; [discriminate|]. split; [|split; [done|split; [|done]]].
    + intros j [= <-]. destruct i as [|i].
      * rewrite Z.add_0_r, (H0 eq_refl). done.
      * rewrite <- (HS i eq_refl). f_equal. f_equal. lia.
    + simpl. by rewrite <- app_assoc in Hanswer.
Qed.

(** X4. In a history returned by the sequential engine, every round
    [k = 1 .. max_rounds - 1] is built on the round before: the [k]-th call
    submits the entry of [round_{k-1}] with the critique of round [k], and
    the provider's answer to it is the entry of [round_k]. *)
Theorem python_rounds_build_on_each_other client self ic sp tr h calls :
  reflection_python.optimize_content client self ic sp tr
    = (Ok h, tr ++ calls) →
  ∀ k : nat, (1 ≤ k)%nat → Z.of_nat k < reflection_python.max_rounds self →
    ∃ prev text,
      h !! round_key (Z.of_nat k - 1) = Some prev ∧
      calls !! (k - 1)%nat
        = Some [ SystemMessage sp; HumanMessage prev;
                 SystemMessage (reflection_python._get_reflection_prompt
                                  self (Z.of_nat k)) ] ∧
      client (tr ++ take (k - 1) calls)
        [ SystemMessage sp; HumanMessage prev;
          SystemMessage (reflection_python._get_reflection_prompt
                           self (Z.of_nat k)) ] = Ok text ∧
      h !! round_key (Z.of_nat k) = Some text.
Proof.
  intros Hrun k Hk HN.
  pose proof (python_round_0 _ _ _ _ _ _ _ Hrun) as Hround0.
  rewrite python_rounds in Hrun.
  destruct (rounds _ _ _ _ _ _ _) as [[[h0 c]|e] tr0] eqn:Hr; [|done].
  injection Hrun as -> ->.
  destruct (rounds_chain _ _ _ _ _ _ _ _ _ _ Hr (k - 1)%nat ltac:(lia))
    as (prev & text & H0 & HS & Hcall & Hanswer & Hentry).
  replace (1 + Z.of_nat (k - 1)) with (Z.of_nat k) in * by lia.
  exists prev, text. rewrite prompt_python.
  split; [|done].
  destruct (k - 1)%nat as [|j] eqn:Hj.
  - rewrite (H0 eq_refl). by replace (Z.of_nat k - 1) with 0 by lia.
  - rewrite <- (HS j eq_refl). f_equal. f_equal. lia.
Qed.

Lemma python_rounds_build_on_each_other_witness :
  ∃ prev text,
    scenario_python_history !! round_key (Z.of_nat 2 - 1) = Some prev ∧
    scenario_python_calls !! (2 - 1)%nat
      = Some [ SystemMessage scenario_prompt; HumanMessage prev;
               SystemMessage (reflection_python._get_reflection_prompt
                                (reflection_python.__init__ None)
                                (Z.of_nat 2)) ] ∧
    stub_refined ([] ++ take (2 - 1) scenario_python_calls)
      [ SystemMessage scenario_prompt; HumanMessage prev;
        SystemMessage (reflection_python._get_reflection_prompt
                         (reflection_python.__init__ None) (Z.of_nat 2)) ]
      = Ok text ∧
    scenario_python_history !! round_key (Z.of_nat 2) = Some text.
Proof.
  apply (python_rounds_build_on_each_other stub_refined
           (reflection_python.__init__ None) scenario_content
           scenario_prompt [] scenario_python_history scenario_python_calls).
  - vm_compute. reflexivity.
  - lia.
  - simpl. lia.
Defined.

(** X5. In a history returned by the graph engine with [max_rounds >= 1],
    round 0 is the provider's answer to the initial content and every round
    [k = 1 .. max_rounds - 1] is built on the round before: call [k] submits
    the entry of [round_{k-1}] with the critique of round [k], and the
    answer to it is the entry of [round_k]. *)
Theorem graph_rounds_build_on_each_other client recursion_limit self ic sp tr
    h calls :
  reflection_engine.optimize_content client recursion_limit self ic sp tr
    = (Ok h, tr ++ calls) →
  1 ≤ reflection_engine.max_rounds self →
  ∀ k : nat, Z.of_nat k < reflection_engine.max_rounds self →
    ∃ prev text,
      (k = O → prev = ic) ∧
      (∀ j : nat, k = S j → h !! round_key (Z.of_nat j) = Some prev) ∧
      calls !! k
        = Some [ SystemMessage sp; HumanMessage prev;
                 SystemMessage (reflection_engine._get_reflection_prompt
                                  self (Z.of_nat k)) ] ∧
      client (tr ++ take k calls)
        [ SystemMessage sp; HumanMessage prev;
          SystemMessage (reflection_engine._get_reflection_prompt
                           self (Z.of_nat k)) ] = Ok text ∧
      h !! round_key (Z.of_nat k) = Some text.
Proof.
  intros Hrun HN k Hk.
  rewrite graph_rounds in Hrun. unfold graph_outcome in Hrun.
  destruct (rounds _ _ _ _ _ _ _) as [[[h0 c]|e] tr0] eqn:Hr; [|done].
  case_decide as Hfuel; [done|]. injection Hrun as -> ->.
  destruct (rounds_chain _ _ _ _ _ _ _ _ _ _ Hr k ltac:(lia))
    as (prev & text & H0 & HS & Hcall & Hanswer & Hentry).
  exists prev, text. rewrite prompt_graph.
  rewrite !Z.add_0_l in *. split; [done|]. split; [|done].
  intros j Hj. specialize (HS j Hj). by rewrite Z.add_0_l in HS.
Qed.

Lemma graph_rounds_build_on_each_other_witness :
  ∃ prev text,
    (2%nat = O → prev = scenario_content) ∧
    (∀ j : nat, 2%nat = S j →
       scenario_graph_history !! round_key (Z.of_nat j) = Some prev) ∧
    scenario_graph_calls !! 2%nat
      = Some [ SystemMessage scenario_prompt; HumanMessage prev;
               SystemMessage (reflection_engine._get_reflection_prompt
                                (reflection_engine.__init__ None)
                                (Z.of_nat 2)) ] ∧
    stub_refined ([] ++ take 2 scenario_graph_calls)
      [ SystemMessage scenario_prompt; HumanMessage prev;
        SystemMessage (reflection_engine._get_reflection_prompt
                         (reflection_engine.__init__ None) (Z.of_nat 2)) ]
      = Ok text ∧
    scenario_graph_history !! round_key (Z.of_nat 2) = Some text.
Proof.
  apply (graph_rounds_build_on_each_other stub_refined 25
           (reflection_engine.__init__ None) scenario_content
           scenario_prompt [] scenario_graph_history scenario_graph_calls).
  - vm_compute. reflexivity.
  - simpl. lia.
  - simpl. lia.
Defined.

(** ** The chat orchestrator *)

(** Three rounds whose calls are answered. *)
Lemma rounds_three client sp r h cur tr c1 c2 c3 :
  client tr (request sp cur r) = Ok c1 →
  client (tr ++ [request sp cur r]) (request sp c1 (r + 1)) = Ok c2 →
  client (tr ++ [request sp cur r; request sp c1 (r + 1)])
    (request sp c2 (r + 2)) = Ok c3 →
  rounds client sp 3 r h cur tr =
  (Ok (record_round (r + 2) c3
         (record_round (r + 1) c2 (record_round r c1 h)), c3),
   tr ++ [ request sp cur r; request sp c1 (r + 1);
           request sp c2 (r + 2) ]).
Proof.
  intros H1 H2 H3.
  rewrite rounds_S, H1, rounds_S, H2, rounds_S.
  replace (r + 1 + 1) with (r + 2) by lia.
  rewrite <- !app_assoc. simpl. by rewrite H3.
Qed.

(** The three calls of a chat turn with the default engine and a provider
    that never fails. *)
Lemma chat_default_turn client recursion_limit bot text tr :
  never_fails client → (3 < recursion_limit)%nat →
  chatbot.engine bot = reflection_engine.__init__ None →
  ∃ c1 c2 reply,
    chatbot.chat_with_history client recursion_limit bot text tr
      = (Ok reply,
         tr ++ [ request (chatbot.prompt bot) text 0;
                 request (chatbot.prompt bot) c1 1;
                 request (chatbot.prompt bot) c2 2 ]) ∧
    client tr (request (chatbot.prompt bot) text 0) = Ok c1 ∧
    client (tr ++ [ request (chatbot.prompt bot) text 0 ])
      (request (chatbot.prompt bot) c1 1) = Ok c2 ∧
    client (tr ++ [ request (chatbot.prompt bot) text 0;
                    request (chatbot.prompt bot) c1 1 ])
      (request (chatbot.prompt bot) c2 2) = Ok reply.
Proof.
  intros Hc Hfuel Hengine.
  set (p := chatbot.prompt bot).
  destruct (Hc tr (request p text 0)) as [c1 H1].
  destruct (Hc (tr ++ [request p text 0]) (request p c1 1)) as [c2 H2].
  destruct (Hc (tr ++ [request p text 0; request p c1 1])
              (request p c2 2)) as [reply H3].
  exists c1, c2, reply. split; [|done].
  rewrite chat_with_history_outcome, graph_rounds, Hengine.
  cbn [reflection_engine.__init__ reflection_engine.max_rounds default].
  replace (recursion_limit `min` (Z.to_nat 3 `max` 1))%nat with 3%nat by lia.
  fold p.
  rewrite (rounds_three client p 0 _ text tr c1 c2 reply H1 H2 H3).
  unfold graph_outcome. case_decide; [lia|].
  unfold record_round at 1. by rewrite lookup_insert_eq.
Qed.







(** ** The handlers of the UI *)

Lemma item_error_is_Exception reply : is_Exception (item_error reply) = true.
Proof. unfold item_error. by destruct (str_chars reply !! 1%nat). Qed.

(** Asking the chat agent and reading [messages[1]["content"]] off its
    reply never yields a value: the reply is a [str]. *)
Lemma ask_agent_outcome {A} client recursion_limit bot text
    (k : string → M A) tr :
  (messages ← chatbot.chat_with_history client recursion_limit bot text;
   second ← str_getitem messages 1;
   reply ← str_getitem_str second "content";
   k reply) tr =
  match chatbot.chat_with_history client recursion_limit bot text tr with
  | (Ok reply, tr') => (Raise (item_error reply), tr')
  | (Raise e, tr') => (Raise e, tr')
  end.
Proof.
  rewrite bind_unfold.
  destruct (chatbot.chat_with_history _ _ _ _ _) as [[reply|e] tr']; [|done].
  rewrite bind_unfold. unfold str_getitem, item_error.
  by destruct (str_chars reply !! 1%nat).
Qed.

(** The exceptions of the chat agent are subclasses of [Exception] when
    those of the provider are. *)
Lemma chat_with_history_raises_exceptions client recursion_limit bot text tr
    e tr' :
  provider_raises_exceptions client →
  chatbot.chat_with_history client recursion_limit bot text tr
    = (Raise e, tr') →
  is_Exception e = true.
Proof.
  intros Hclient Hchat.
  destruct (chat_with_history_raises _ _ _ _ _ _ _ Hchat)
    as [-> | [-> | (tr0 & m & Hm)]]; [done | done |].
  apply (Hclient _ _ _ Hm).
Qed.

(** X9. For a text that is not empty, [generate_contents] makes exactly the
    calls of the chat agent and then raises; for an empty text, also a dict
    without a ["text"] entry, it raises [gr.Error("请输入内容")] without any
    call. With the default engine, a provider that never fails and a step
    limit above 3, three calls are made and their result is discarded. *)
Theorem generate_contents_calls client recursion_limit chat_agent message
    history tr :
  (message_text message = "" →
   gradiobak.generate_contents client recursion_limit chat_agent message
     history tr = (Raise (GrError "请输入内容"), tr)) ∧
  (message_text message ≠ "" →
   (gradiobak.generate_contents client recursion_limit chat_agent message
      history tr).2
   = (chatbot.chat_with_history client recursion_limit chat_agent
        (message_text message) tr).2) ∧
  (message_text message ≠ "" → never_fails client →
   (3 < recursion_limit)%nat →
   chatbot.engine chat_agent = reflection_engine.__init__ None →
   ∃ c1 c2,
     gradiobak.generate_contents client recursion_limit chat_agent message
       history tr
     = (Raise (GrError "网络问题，请重试:)"),
        tr ++ [ request (chatbot.prompt chat_agent) (message_text message) 0;
                request (chatbot.prompt chat_agent) c1 1;
                request (chatbot.prompt chat_agent) c2 2 ])).
Proof.
  split; [|split].
  - intros Hempty. unfold gradiobak.generate_contents, try_except.
    fold (message_text message). by rewrite Hempty.
  - intros Htext. rewrite (generate_contents_outcome _ _ _ _ _ _ Htext).
    by destruct (chatbot.chat_with_history _ _ _ _ _) as [[reply|e] tr'].
  - intros Htext Hc Hfuel Hengine.
    rewrite (generate_contents_outcome _ _ _ _ _ _ Htext).
    destruct (chat_default_turn client recursion_limit chat_agent
                (message_text message) tr Hc Hfuel Hengine)
      as (c1 & c2 & reply & -> & _).
    by exists c1, c2.
Qed.

Lemma generate_contents_calls_witness :
  gradiobak.generate_contents stub_total 25 demo_agent
    (gradiobak.MsgDict {["files" := "none"]}) [] []
    = (Raise (GrError "请输入内容"), []) ∧
  ∃ c1 c2,
    gradiobak.generate_contents stub_total 25 demo_agent
      (gradiobak.MsgStr scenario_content) [] []
    = (Raise (GrError "网络问题，请重试:)"),
       [] ++ [ request (chatbot.prompt demo_agent)
                 (message_text (gradiobak.MsgStr scenario_content)) 0;
               request (chatbot.prompt demo_agent) c1 1;
               request (chatbot.prompt demo_agent) c2 2 ]).
Proof.
  split.
  - destruct (generate_contents_calls stub_total 25 demo_agent
                (gradiobak.MsgDict {["files" := "none"]}) [] [])
      as (Hempty & _).
    apply Hempty. reflexivity.
  - destruct (generate_contents_calls stub_total 25 demo_agent
                (gradiobak.MsgStr scenario_content) [] [])
      as (_ & _ & Hcost).
    apply Hcost; [discriminate | apply stub_total_never_fails | lia | done].
Defined.

(** [transcribe] on a recording, in terms of the recognizer's and the chat
    agent's outcomes. *)
Lemma transcribe_outcome client recursion_limit chat_agent asr path history
    tr :
  path ≠ "" →
  gradiobak.transcribe client recursion_limit chat_agent asr (Some path)
    history tr =
  match asr path with
  | Ok text =>
      match chatbot.chat_with_history client recursion_limit chat_agent
              text tr with
      | (Ok reply, tr') => (Raise (GrError "音频处理失败，请重试"), tr')
      | (Raise e, tr') =>
          (Raise (if is_Exception e then GrError "音频处理失败，请重试"
                  else e), tr')
      end
  | Raise e =>
      (Raise (if is_Exception e then GrError "音频处理失败，请重试" else e),
       tr)
  end.
Proof.
  intros Hpath.
  assert (truthy path = true) as Htruthy by (by destruct path).
  unfold gradiobak.transcribe, try_except_Exception, try_except.
  simpl. rewrite Htruthy. simpl. rewrite bind_unfold. unfold external.
  destruct (asr path) as [text|e].
  - rewrite ask_agent_outcome.
    destruct (chatbot.chat_with_history _ _ _ _ _) as [[reply|e] tr'].
    + by rewrite item_error_is_Exception.
    + by destruct (is_Exception e).
  - by destruct (is_Exception e).
Qed.

(** X10. [transcribe] returns the history untouched, without any call, when
    there is no recording ([None] or an empty path). With a recording it
    never returns a reply: the transcript, empty or not, goes to the chat
    agent, whose calls are all made, and the handler raises; what it raises
    is [gr.Error("音频处理失败，请重试")] whenever the failures of the
    recognizer and of the provider are subclasses of [Exception]. *)
Theorem transcribe_never_replies client recursion_limit chat_agent asr
    audio history tr :
  (audio = None ∨ audio = Some "" →
   gradiobak.transcribe client recursion_limit chat_agent asr audio history tr
     = (Ok history, tr)) ∧
  (∀ path, audio = Some path → path ≠ "" →
     (∃ e tr',
        gradiobak.transcribe client recursion_limit chat_agent asr audio
          history tr = (Raise e, tr')) ∧
     (∀ text, asr path = Ok text →
        (gradiobak.transcribe client recursion_limit chat_agent asr audio
           history tr).2
        = (chatbot.chat_with_history client recursion_limit chat_agent
             text tr).2) ∧
     (raises_exceptions asr → provider_raises_exceptions client →
      ∃ tr',
        gradiobak.transcribe client recursion_limit chat_agent asr audio
          history tr = (Raise (GrError "音频处理失败，请重试"), tr'))).
Proof.
  split.
  - intros [-> | ->]; reflexivity.
  - intros path -> Hpath. rewrite (transcribe_outcome _ _ _ _ _ _ _ Hpath).
    destruct (asr path) as [text|e] eqn:Hasr.
    + destruct (chatbot.chat_with_history _ _ _ _ _)
        as [[reply|e] tr'] eqn:Hchat.
      * split; [by eexists _, _|]. split; [by intros ? [= <-]; rewrite Hchat|].
        intros _ _. by eexists.
      * split; [by eexists _, _|].
        split; [by intros ? [= <-]; rewrite Hchat|].
        intros _ Hclient.
        rewrite (chat_with_history_raises_exceptions _ _ _ _ _ _ _
                   Hclient Hchat).
        by eexists.
    + split; [by eexists _, _|]. split; [done|].
      intros Hasr' _. rewrite (Hasr' _ _ Hasr). by eexists.
Qed.

Lemma transcribe_never_replies_witness :
  gradiobak.transcribe stub_total 25 demo_agent stub_asr (Some "") [] []
    = (Ok [], []) ∧
  ∃ tr',
    gradiobak.transcribe stub_total 25 demo_agent stub_asr
      (Some "talk.wav") [] []
    = (Raise (GrError "音频处理失败，请重试"), tr').
Proof.
  split.
  - destruct (transcribe_never_replies stub_total 25 demo_agent stub_asr
                (Some "") [] []) as (Hnone & _).
    apply Hnone. by right.
  - destruct (transcribe_never_replies stub_total 25 demo_agent stub_asr
                (Some "talk.wav") [] []) as (_ & Hsome).
    destruct (Hsome "talk.wav" eq_refl) as (_ & _ & Hgeneric); [done|].
    apply Hgeneric.
    + intros x e. discriminate.
    + intros tr0 m e. discriminate.
Defined.

Section FileUpload.
Variable client : provider.
Variable recursion_limit : nat.
Variable chat_agent : chatbot.ChatBot.
Variables asr docx format adjust : string → result string.
Variables splitext_lower basename : string → string.

Let upload :=
  gradiobak.handle_file_upload client recursion_limit chat_agent asr docx
    format adjust splitext_lower basename.

(** The upload of an audio file, in terms of the recognizer's and the chat
    agent's outcomes. *)
Lemma upload_audio_outcome file history tr :
  splitext_lower (gradiobak.name file) ∈ [".wav"; ".flac"; ".mp3"] →
  upload (Some file) history tr =
  match asr (gradiobak.name file) with
  | Ok text =>
      match chatbot.chat_with_history client recursion_limit chat_agent
              text tr with
      | (Ok reply, tr') => (Raise (GrError "文件处理失败，请重试"), tr')
      | (Raise e, tr') =>
          (Raise (if is_Exception e then GrError "文件处理失败，请重试"
                  else e), tr')
      end
  | Raise e =>
      (Raise (if is_Exception e then GrError "文件处理失败，请重试" else e),
       tr)
  end.
Proof.
  intros Hext. unfold upload, gradiobak.handle_file_upload.
  unfold try_except_Exception, try_except.
  rewrite (bool_decide_eq_true_2 _ Hext).
  rewrite bind_unfold. unfold external.
  destruct (asr (gradiobak.name file)) as [text|e].
  - rewrite ask_agent_outcome.
    destruct (chatbot.chat_with_history _ _ _ _ _) as [[reply|e] tr'].
    + by rewrite item_error_is_Exception.
    + by destruct (is_Exception e).
  - by destruct (is_Exception e).
Qed.

(** X11. [handle_file_upload] returns the history untouched when there is
    no file. For a file whose extension is none of [.wav], [.flac], [.mp3],
    [.docx], [.doc] it makes no call and raises
    [gr.Error("文件处理失败，请重试")]: the error that names the unsupported
    format is caught by the handler's own [except Exception] and never
    reaches the caller. *)
Theorem upload_unsupported_format_is_masked file history tr :
  upload None history tr = (Ok history, tr) ∧
  (splitext_lower (gradiobak.name file) ∉ [".wav"; ".flac"; ".mp3"] →
   splitext_lower (gradiobak.name file) ∉ [".docx"; ".doc"] →
   upload (Some file) history tr
     = (Raise (GrError "文件处理失败，请重试"), tr) ∧
   upload (Some file) history tr
     ≠ (Raise (GrError ("不支持的文件格式: "
                        +:+ splitext_lower (gradiobak.name file))), tr)).
Proof.
  split; [done|]. intros Haudio Hdoc.
  assert (Hrun : upload (Some file) history tr
                 = (Raise (GrError "文件处理失败，请重试"), tr)).
  { unfold upload, gradiobak.handle_file_upload.
    unfold try_except_Exception, try_except.
    rewrite (bool_decide_eq_false_2 _ Haudio).
    by rewrite (bool_decide_eq_false_2 _ Hdoc). }
  split; [done|]. rewrite Hrun. simpl. discriminate.
Qed.

(** X12. The upload of an audio file never returns a reply: the transcript
    goes to the chat agent, whose calls are all made, and the handler
    raises; what it raises is [gr.Error("文件处理失败，请重试")] whenever the
    failures of the recognizer and of the provider are subclasses of
    [Exception]. *)
Theorem upload_audio_never_replies file history tr :
  splitext_lower (gradiobak.name file) ∈ [".wav"; ".flac"; ".mp3"] →
  (∃ e tr', upload (Some file) history tr = (Raise e, tr')) ∧
  (∀ text, asr (gradiobak.name file) = Ok text →
     (upload (Some file) history tr).2
     = (chatbot.chat_with_history client recursion_limit chat_agent
          text tr).2) ∧
  (raises_exceptions asr → provider_raises_exceptions client →
   ∃ tr', upload (Some file) history tr
          = (Raise (GrError "文件处理失败，请重试"), tr')).
Proof.
  intros Hext. rewrite (upload_audio_outcome _ _ _ Hext).
  destruct (asr (gradiobak.name file)) as [text|e] eqn:Hasr.
  - destruct (chatbot.chat_with_history _ _ _ _ _)
      as [[reply|e] tr'] eqn:Hchat.
    + split; [by eexists _, _|]. split; [by intros ? [= <-]; rewrite Hchat|].
      intros _ _. by eexists.
    + split; [by eexists _, _|].
      split; [by intros ? [= <-]; rewrite Hchat|].
      intros _ Hclient.
      rewrite (chat_with_history_raises_exceptions _ _ _ _ _ _ _
                 Hclient Hchat).
      by eexists.
  - split; [by eexists _, _|]. split; [done|].
    intros Hasr' _. rewrite (Hasr' _ _ Hasr). by eexists.
Qed.

End FileUpload.

Lemma upload_unsupported_format_is_masked_witness :
  gradiobak.handle_file_upload stub_total 25 demo_agent stub_asr stub_docx
    stub_format stub_adjust stub_ext (λ p, p)
    (Some {| gradiobak.name := "slides.pdf" |}) [] []
  = (Raise (GrError "文件处理失败，请重试"), []).
Proof.
  destruct (upload_unsupported_format_is_masked stub_total 25 demo_agent
              stub_asr stub_docx stub_format stub_adjust stub_ext (λ p, p)
              {| gradiobak.name := "slides.pdf" |} [] []) as (_ & Hmasked).
  apply Hmasked; vm_compute; set_solver.
Defined.

Lemma upload_audio_never_replies_witness :
  ∃ tr',
    gradiobak.handle_file_upload stub_total 25 demo_agent stub_asr stub_docx
      stub_format stub_adjust stub_ext (λ p, p)
      (Some {| gradiobak.name := "talk.mp3" |}) [] []
    = (Raise (GrError "文件处理失败，请重试"), tr').
Proof.
  destruct (upload_audio_never_replies stub_total 25 demo_agent
              stub_asr stub_docx stub_format stub_adjust stub_ext (λ p, p)
              {| gradiobak.name := "talk.mp3" |} [] [])
    as (_ & _ & Hgeneric); [vm_compute; set_solver|].
  apply Hgeneric.
  - intros x e. discriminate.
  - intros tr0 m e. discriminate.
Defined.


Section ImagesAndSlides.
Variable ImagePair : Type.
Variable generate_images : string → result (string * ImagePair).
Variable PowerpointData : Type.
Variable parse_input_text : string → result (PowerpointData * string).
Variable generate_presentation : PowerpointData → string → result unit.

(** The search for the assistant's message passes over the messages of
    other roles. *)
Lemma next_assistant_skip skipped rest tr :
  Forall not_from_assistant skipped →
  gradiobak.next_assistant (skipped ++ rest) tr
    = gradiobak.next_assistant rest tr.
Proof.
  induction 1 as [|msg skipped (role & Hrole & Hne) _ IH]; [done|].
  simpl. rewrite bind_unfold. unfold dict_getitem. rewrite Hrole.
  unfold ret. cbv beta iota.
  rewrite bool_decide_eq_false_2 by done. apply IH.
Qed.

(** X14. [handle_image_generate] works on the last message of the assistant
    in the history: when the messages after it have other roles and the
    image advisor returns, the handler returns the user's message
    ["生成配图"] and the advisor's content as the assistant's. When the
    history has messages of other roles only, or is empty, the handler
    raises [gr.Error("【提示】未找到合适配图，请重试！")]; its own error
    ["没有找到可用的内容"] never reaches the caller. *)
Theorem image_generate_uses_last_assistant_message history tr :
  (∀ before msg after slides content pair,
     history = before ++ msg :: after →
     msg !! "role" = Some "assistant" →
     msg !! "content" = Some slides →
     Forall not_from_assistant after →
     generate_images slides = Ok (content, pair) →
     gradiobak.handle_image_generate ImagePair generate_images history tr
     = (Ok [ <["content" := "生成配图"]> {["role" := "user"]};
             <["content" := content]> {["role" := "assistant"]} ], tr)) ∧
  (Forall not_from_assistant history →
   gradiobak.handle_image_generate ImagePair generate_images history tr
   = (Raise (GrError "【提示】未找到合适配图，请重试！"), tr)).
Proof.
  split.
  - intros before msg after slides content pair -> Hrole Hcontent Hafter
      Himages.
    unfold gradiobak.handle_image_generate.
    unfold try_except_Exception, try_except.
    rewrite reverse_app, reverse_cons, <- app_assoc, bind_unfold.
    rewrite next_assistant_skip by by apply Forall_reverse.
    simpl. rewrite bind_unfold. unfold dict_getitem at 1. rewrite Hrole.
    simpl.
    assert (dict_truthy msg = true) as ->.
    { unfold dict_truthy. rewrite bool_decide_eq_false_2; [done|].
      intros ->. by rewrite lookup_empty in Hrole. }
    simpl. rewrite bind_unfold. unfold dict_getitem. rewrite Hcontent.
    simpl. rewrite bind_unfold. unfold external. by rewrite Himages.
  - intros Hall. unfold gradiobak.handle_image_generate.
    unfold try_except_Exception, try_except.
    rewrite bind_unfold.
    rewrite <- (app_nil_r (reverse history)).
    rewrite next_assistant_skip by by apply Forall_reverse.
    done.
Qed.

(** X15. [handle_generate] never produces a presentation: the history is a
    list of dicts with [str] keys, so [history[-1][1]] raises, [IndexError]
    on an empty history and [KeyError] otherwise; neither [parse_input_text]
    nor [generate_presentation] is reached, and the handler raises
    [gr.Error("【提示】请先输入你的主题内容或上传文件")] for every
    history. *)
Theorem generate_never_produces_slides history tr :
  gradiobak.handle_generate PowerpointData parse_input_text
    generate_presentation history tr
  = (Raise (GrError "【提示】请先输入你的主题内容或上传文件"), tr) ∧
  (∃ e, (last ← list_getitem history (-1); dict_getitem_int last 1) tr
          = (Raise e, tr) ∧
        (e = IndexError ∨ e = KeyError "1")).
Proof.
  assert (Hitem : ∃ e,
            (last ← list_getitem history (-1); dict_getitem_int last 1) tr
              = (Raise e, tr) ∧ (e = IndexError ∨ e = KeyError "1")).
  { destruct (last history) as [d|] eqn:Hlast.
    - rewrite (list_getitem_last _ _ Hlast). exists (KeyError "1").
      split; [done|]. by right.
    - apply last_None in Hlast. subst history. exists IndexError.
      split; [done|]. by left. }
  split; [|done].
  destruct Hitem as (e & He & Hcase).
  unfold gradiobak.handle_generate, try_except_Exception, try_except.
  rewrite bind_unfold in *.
  destruct (list_getitem history (-1) tr) as [[d|e0] tr0].
  - rewrite bind_unfold. unfold dict_getitem_int, raise in *. simpl.
    by injection He as _ ->.
  - injection He as -> ->. by destruct Hcase as [-> | ->].
Qed.
End ImagesAndSlides.

Lemma image_generate_uses_last_assistant_message_witness :
  gradiobak.handle_image_generate unit stub_images
    [ <["content" := "first draft"]> {["role" := "assistant"]};
      <["content" := "make it shorter"]> {["role" := "user"]};
      <["content" := "second draft"]> {["role" := "assistant"]};
      <["content" := "生成配图"]> {["role" := "user"]} ] []
  = (Ok [ <["content" := "生成配图"]> {["role" := "user"]};
          <["content" := "second draft ![image](images/1.png)"]>
            {["role" := "assistant"]} ], []) ∧
  gradiobak.handle_image_generate unit stub_images
    [ <["content" := "hello"]> {["role" := "user"]} ] []
  = (Raise (GrError "【提示】未找到合适配图，请重试！"), []).
Proof.
  split.
  - destruct (image_generate_uses_last_assistant_message unit stub_images
                [ <["content" := "first draft"]> {["role" := "assistant"]};
                  <["content" := "make it shorter"]> {["role" := "user"]};
                  <["content" := "second draft"]> {["role" := "assistant"]};
                  <["content" := "生成配图"]> {["role" := "user"]} ] [])
      as (Hlast & _).
    apply (Hlast
             [ <["content" := "first draft"]> {["role" := "assistant"]};
               <["content" := "make it shorter"]> {["role" := "user"]} ]
             (<["content" := "second draft"]> {["role" := "assistant"]})
             [ <["content" := "生成配图"]> {["role" := "user"]} ]
             "second draft" "second draft ![image](images/1.png)" ());
      try reflexivity.
    repeat constructor. exists "user". split; [reflexivity | discriminate].
  - destruct (image_generate_uses_last_assistant_message unit stub_images
                [ <["content" := "hello"]> {["role" := "user"]} ] [])
      as (_ & Hnone).
    apply Hnone. repeat constructor.
    exists "user". split; [reflexivity | discriminate].
Defined.
